(** * support.py: data access layer of the Domestic Load Research database

    A shallow embedding of the wrangling functions of [support.py]
    ([getGroups], [getProfileID], [getAnswerID], [getMetaProfiles],
    [getProfiles], [saveTables], [anonAns]) and the properties their
    specification states about them.

    Data frames are lists of rows, one record per table schema.  A call
    [getData('T')] reads the field [T] of the database snapshot [DB]; nothing
    in the module writes to the database.  A missing value (SQL NULL, pandas
    NaN) of a column is [None]. *)

From Stdlib Require Import ZArith Ascii String List Lia.
From stdpp Require Import base option list sorting strings pretty gmap.

Local Open Scope string_scope.
Local Open Scope list_scope.
Local Open Scope Z_scope.

(** ** Python built-ins used by the module *)

Module Py.

(** Values whose type the source leaves to the caller (the [year]
    argument): an [int] or a [str]. *)
Inductive value :=
| Int (z : Z)
| Str (s : string).

#[global] Instance value_eq_dec : EqDecision value.
Proof. solve_decision. Defined.

(** [str(x)] *)
Definition str (x : value) : string :=
  match x with
  | Int z => pretty z
  | Str s => s
  end.

(** [c.isspace()] on code points below 256. *)
Definition isspace (c : ascii) : bool :=
  let n := nat_of_ascii c in
  ((9 <=? n)%nat && (n <=? 13)%nat)
  || ((28 <=? n)%nat && (n <=? 32)%nat)
  || (n =? 133)%nat || (n =? 160)%nat.

Fixpoint lstrip (s : string) : string :=
  match s with
  | EmptyString => EmptyString
  | String c s' => if isspace c then lstrip s' else s
  end.

Fixpoint rstrip (s : string) : string :=
  match s with
  | EmptyString => EmptyString
  | String c s' =>
      match rstrip s' with
      | EmptyString => if isspace c then EmptyString else String c EmptyString
      | t => String c t
      end
  end.

(** [s.strip()] *)
Definition strip (s : string) : string := rstrip (lstrip s).

Definition lower_char (c : ascii) : ascii :=
  let n := nat_of_ascii c in
  if ((65 <=? n)%nat && (n <=? 90)%nat) then ascii_of_nat (n + 32) else c.

(** [s.lower()] on ASCII letters. *)
Fixpoint lower (s : string) : string :=
  match s with
  | EmptyString => EmptyString
  | String c s' => String (lower_char c) (lower s')
  end.

(** Exceptions the modelled code can raise. *)
Inductive exn :=
| ValueError
| IndexError
| TypeError
| UnboundLocalError
| DatabaseError
| FileNotFoundError.

(** What a call does: it returns a value, it prints a message and returns
    [None] (the idiom [return print(...)]), or it raises. *)
Inductive outcome (A : Type) :=
| Returned (a : A)
| Printed (msg : string)
| Raised (e : exn).
Arguments Returned {A} a.
Arguments Printed {A} msg.
Arguments Raised {A} e.

End Py.

(** [pandas.unique]: distinct values in order of first appearance. *)
Definition unique_step `{EqDecision A} (acc : list A) (x : A) : list A :=
  if decide (x ∈ acc) then acc else acc ++ [x].

Definition unique `{EqDecision A} (l : list A) : list A :=
  foldl unique_step [] l.

(** ** Table schemas *)

Module Groups.
(** A row of the [Groups] table as stored: [ParentID] may be NULL. *)
Record raw := mkRaw {
  rGroupID : Z;
  rParentID : option Z;
  rGroupName : string;
  rContextID : option Z }.

(** A row after lines 237-239: [ParentID] filled and cast to integer. *)
Record row := mkRow {
  GroupID : Z;
  ParentID : Z;
  GroupName : string;
  ContextID : option Z }.

(** The three columns kept for merging ([g1], [g2], [g3]). *)
Record slim := mkSlim {
  sGroupID : Z;
  sParentID : Z;
  sGroupName : string }.
End Groups.

Module Flat.
(** A row of the flattened group table ([prettynames], line 262). *)
Record row := mkRow {
  ContextID : option Z;
  GroupID_1 : option Z;
  GroupID_2 : option Z;
  GroupID_3 : option Z;
  GroupID : Z;
  Dom_NonDom : option string;
  Survey : option string;
  Year : option string;
  Location : string }.
End Flat.

Module Link.
Record row := mkRow {
  ProfileID : Z;
  AnswerID : Z;
  GroupID : Z }.

(** Iterating over a data frame yields its column labels. *)
Definition columns : list string := ["ProfileID"; "AnswerID"; "GroupID"].
End Link.

Module Meta.
(** The four columns of the [profiles] table kept on line 101.  [U] is the
    type of the unit column: the numeric code as stored, the label once
    the categories are renamed. *)
Record row (U : Type) := mkRow {
  Active : bool;
  ProfileId : Z;
  RecorderID : string;
  UoM : option U }.
Arguments mkRow {U}.
Arguments Active {U}.
Arguments ProfileId {U}.
Arguments RecorderID {U}.
Arguments UoM {U}.
End Meta.

Module Units.
(** [ProfileUnitsOfMeasure] *)
Record row := mkRow {
  UnitsID : Z;
  Description : string }.
End Units.

Module Profile.
(** The columns of [Profiletable] selected by the query of [getProfiles]. *)
Record row := mkRow {
  ProfileID : Z;
  Datefield : Z;
  Unitsread : option Z;
  Valid : string }.
End Profile.

Module Load.
(** A measurement joined with its metadata (line 157-158). *)
Record row := mkRow {
  ProfileID : Z;
  Datefield : Z;
  Unitsread : option Z;
  Valid : string;
  Active : bool;
  RecorderID : string;
  UoM : option string }.
End Load.

Module Answers.
Record row := mkRow {
  AnswerID : Z;
  QuestionaireID : Z }.
End Answers.

Module Rule.
(** A line of an anonymisation rule file. *)
Record row := mkRow {
  QuestionaireID : Z;
  ColumnNo : Z;
  anonymise : Z }.
End Rule.

(** Answer tables have one column per question; a row maps column labels to
    cells, and a label without a cell is a missing value. *)
Inductive cell :=
| CNone
| CNaN
| CInt (z : Z)
| CStr (s : string).

Global Instance cell_eq_dec : EqDecision cell.
Proof. solve_decision. Defined.

Abbreviation frame := (list (gmap string cell)).

(** The database snapshot.  [db_month_query ids i] is the server's answer to
    the query of lines 146-152 for the identifier list [ids] and month [i],
    [None] when [getData] raises. *)
Record DB := mkDB {
  db_LinkTable : list Link.row;
  db_Groups : list Groups.raw;
  db_profiles : list (Meta.row Z);
  db_ProfileUnitsOfMeasure : list Units.row;
  db_month_query : list Z → Z → option (list Profile.row);
  db_Answers : list Answers.row;
  db_Answers_blob : frame;
  db_Answers_char : frame }.

(** The database together with the data directory: the rule files under
    [data/anonymise] and the feather files under [data/tables]. *)
Record World := mkWorld {
  db : DB;
  anonymise_dir : gmap string (list Rule.row);
  tables_dir : gmap string frame }.

(** ** Group Hierarchy Builder: [getGroups] *)

Section merge.
Context {L R : Type}.

(** [pd.merge(left, right, left_on=.., right_on=.., how='left')]: every
    left row in order, once per matching right row, or once with the right
    columns missing.  A missing left key matches no right row. *)
Definition merge_left (left_on : L → option Z) (right_on : R → Z)
    (ls : list L) (rs : list R) : list (L * option R) :=
  l ← ls;
  match filter (λ r, left_on l = Some (right_on r)) rs with
  | [] => [(l, None)]
  | ms => (λ r, (l, Some r)) <$> ms
  end.

(** [pd.merge(left, right, left_on=.., right_on=..)] (inner join): the
    matching pairs grouped by key, the keys in the order of their first left
    row; under a key the left rows in order, each with the matching right
    rows in order. *)
Definition merge_inner (left_on : L → Z) (right_on : R → Z)
    (ls : list L) (rs : list R) : list (L * R) :=
  k ← unique (left_on <$> ls);
  l ← filter (λ l, left_on l = k) ls;
  (λ r, (l, r)) <$> filter (λ r, right_on r = k) rs.
End merge.

(** Order of the index [(GroupID_1, GroupID_2, GroupID_3)]: lexicographic,
    missing labels after all present ones. *)
Definition label_compare (a b : option Z) : comparison :=
  match a, b with
  | Some x, Some y => x ?= y
  | Some _, None => Lt
  | None, Some _ => Gt
  | None, None => Eq
  end.

Definition index_leb (a b : option Z * option Z * option Z) : bool :=
  let '(a1, a2, a3) := a in
  let '(b1, b2, b3) := b in
  match label_compare a1 b1 with
  | Lt => true
  | Gt => false
  | Eq =>
      match label_compare a2 b2 with
      | Lt => true
      | Gt => false
      | Eq => match label_compare a3 b3 with Gt => false | _ => true end
      end
  end.

Definition flat_index (r : Flat.row) : option Z * option Z * option Z :=
  (Flat.GroupID_1 r, Flat.GroupID_2 r, Flat.GroupID_3 r).

(** [.set_index([...]).sort_index()]: rows in ascending order of the index;
    rows with equal index keep their relative order. *)
Fixpoint insert_row (r : Flat.row) (t : list Flat.row) : list Flat.row :=
  match t with
  | [] => [r]
  | r' :: t' =>
      if index_leb (flat_index r) (flat_index r') then r :: t
      else r' :: insert_row r t'
  end.

Definition sort_index (t : list Flat.row) : list Flat.row :=
  foldr insert_row [] t.

(** Lines 237-239. *)
Definition normalise (g : Groups.raw) : Groups.row :=
  {| Groups.GroupID := Groups.rGroupID g;
     Groups.ParentID := default 0 (Groups.rParentID g);
     Groups.GroupName := Py.strip (Groups.rGroupName g);
     Groups.ContextID := Groups.rContextID g |}.

Definition slim (g : Groups.row) : Groups.slim :=
  {| Groups.sGroupID := Groups.GroupID g;
     Groups.sParentID := Groups.ParentID g;
     Groups.sGroupName := Groups.GroupName g |}.

(** [groups[groups['ParentID'].isin(level['GroupID'])]] *)
Definition children_of (level groups : list Groups.row) : list Groups.row :=
  filter (λ g, Groups.ParentID g ∈ Groups.GroupID <$> level) groups.

Definition groups_level_1 (groups : list Groups.row) : list Groups.row :=
  filter (λ g, Groups.ParentID g = 0) groups.
Definition groups_level_2 (groups : list Groups.row) : list Groups.row :=
  children_of (groups_level_1 groups) groups.
Definition groups_level_3 (groups : list Groups.row) : list Groups.row :=
  children_of (groups_level_2 groups) groups.
Definition groups_level_4 (groups : list Groups.row) : list Groups.row :=
  children_of (groups_level_3 groups) groups.

(** A row of [recon1]: the level-4 row with its matched ancestors. *)
Definition recon_row : Type :=
  Groups.row * option Groups.slim * option Groups.slim * option Groups.slim.

(** Lines 261-263: projection to nine columns and renaming. *)
Definition pretty_row (r : recon_row) : Flat.row :=
  let '(g4, m3, m2, m1) := r in
  {| Flat.ContextID := Groups.ContextID g4;
     Flat.GroupID_1 := Groups.sGroupID <$> m1;
     Flat.GroupID_2 := Groups.sGroupID <$> m2;
     Flat.GroupID_3 := Groups.sGroupID <$> m3;
     Flat.GroupID := Groups.GroupID g4;
     Flat.Dom_NonDom := Groups.sGroupName <$> m1;
     Flat.Survey := Groups.sGroupName <$> m2;
     Flat.Year := Groups.sGroupName <$> m3;
     Flat.Location := Groups.GroupName g4 |}.

(** Lines 244-263 on the normalised table. *)
Definition reconstruct (groups : list Groups.row) : list Flat.row :=
  let g1 := slim <$> groups_level_1 groups in
  let g2 := slim <$> groups_level_2 groups in
  let g3 := slim <$> groups_level_3 groups in
  let recon3 :=
    merge_left (λ g, Some (Groups.ParentID g)) Groups.sGroupID
      (groups_level_4 groups) g3 in
  let recon2 :=
    merge_left (λ r, Groups.sParentID <$> r.2) Groups.sGroupID recon3 g2 in
  let recon1 :=
    merge_left (λ r, Groups.sParentID <$> r.2) Groups.sGroupID recon2 g1 in
  pretty_row <$> recon1.

Definition getGroups (db : DB) (year : option Py.value) : list Flat.row :=
  let groups := normalise <$> db_Groups db in
  let allgroups := sort_index (reconstruct groups) in
  match year with
  | None => allgroups
  | Some y =>
      let stryear := Py.str y in
      filter (λ r, Flat.Year r = Some stryear) allgroups
  end.

(** *** Strict four-level trees

    [parents groups g] are the rows [ParentID] of [g] resolves to.  A group is
    at level 1 when its [ParentID] is the root marker 0, and at level [k+1]
    when its [ParentID] resolves to exactly one row, which is at level [k]. *)
Definition parents (groups : list Groups.row) (g : Groups.row)
    : list Groups.row :=
  filter (λ p, Groups.GroupID p = Groups.ParentID g) groups.

Fixpoint at_level (groups : list Groups.row) (k : nat) (g : Groups.row)
    : bool :=
  match k with
  | O => false
  | S O => bool_decide (Groups.ParentID g = 0)
  | S k' =>
      bool_decide (Groups.ParentID g ≠ 0)
      && match parents groups g with
         | [p] => at_level groups k' p
         | _ => false
         end
  end.

(** The table is a forest of depth at most four in which 0 only marks roots:
    no group is numbered 0 (it would be the parent of every root), and every
    group sits at one of the levels 1 to 4. *)
Definition strict_tree (groups : list Groups.row) : Prop :=
  (0 ∉ Groups.GroupID <$> groups)
  ∧ Forall (λ g, at_level groups 1 g ∨ at_level groups 2 g
                 ∨ at_level groups 3 g ∨ at_level groups 4 g) groups.

(** The columns of a flattened row that come from the location group. *)
Definition leaf_columns (r : Flat.row) : Z * string * option Z :=
  (Flat.GroupID r, Flat.Location r, Flat.ContextID r).
Definition group_columns (g : Groups.row) : Z * string * option Z :=
  (Groups.GroupID g, Groups.GroupName g, Groups.ContextID g).


(** ** Identifier Resolver: [getProfileID], [getAnswerID] *)

(** What [getProfileID] hands back: the filtered link rows when no year is
    given (line 78), a series of distinct identifiers otherwise (line 81). *)
Inductive ids :=
| Frame (rows : list Link.row)
| Series (values : list Z).

(** The profile identifiers a result carries. *)
Definition profile_ids (r : ids) : list Z :=
  match r with
  | Frame rows => Link.ProfileID <$> rows
  | Series values => values
  end.

(** [links[(links.GroupID != 0) & (links.ProfileID != 0)]] *)
Definition allprofiles (db : DB) : list Link.row :=
  filter (λ l, Link.GroupID l ≠ 0 ∧ Link.ProfileID l ≠ 0) (db_LinkTable db).

Definition getProfileID (db : DB) (year : option Py.value) : ids :=
  match year with
  | None => Frame (allprofiles db)
  | Some _ =>
      Series (unique (Link.ProfileID <$>
        filter (λ l, Link.GroupID l ∈ Flat.GroupID <$> getGroups db year)
          (allprofiles db)))
  end.

Definition getAnswerID (db : DB) : list Link.row :=
  filter (λ l, Link.GroupID l ≠ 0 ∧ Link.AnswerID l ≠ 0) (db_LinkTable db).

(** ** Metadata Filter: [getMetaProfiles] *)

(** [map(str, x)]: iterating a series yields its values, iterating a data
    frame yields its column labels. *)
Definition map_str (x : ids) : list string :=
  match x with
  | Frame _ => Link.columns
  | Series values => (λ z : Z, pretty z) <$> values
  end.

(** Lines 99-103.  [ProfileId] is matched against the textual identifiers
    [pids] through its decimal text. *)
Definition metaprofiles (db : DB) (year : option Py.value)
    : list (Meta.row Z) :=
  let pids := map_str (getProfileID db year) in
  filter (λ m, pretty (Meta.ProfileId m) ∈ pids) (db_profiles db).

(** Categories of [pd.Categorical(col)]: the distinct non-missing values in
    ascending order. *)
Definition categories (col : list (option Z)) : list Z :=
  merge_sort Z.le (unique (omap id col)).

(** [col.cat.categories = new]: the i-th old category is renamed to the i-th
    new one; raises [ValueError] unless there are as many new categories as
    old ones and the new ones are distinct. *)
Definition rename_categories (old : list Z) (new : list string)
    : option (gmap Z string) :=
  if decide (length new = length old ∧ NoDup new)
  then Some (list_to_map (zip old new))
  else None.

Definition relabel (names : gmap Z string) (m : Meta.row Z)
    : Meta.row string :=
  {| Meta.Active := Meta.Active m;
     Meta.ProfileId := Meta.ProfileId m;
     Meta.RecorderID := Meta.RecorderID m;
     Meta.UoM := Meta.UoM m ≫= (names !!.) |}.

(** The unit codes in use among the year's profiles: the categories of the
    [UoM] column (line 104). *)
Definition unit_codes (db : DB) (year : option Py.value) : list Z :=
  categories (Meta.UoM <$> metaprofiles db year).

(** Line 106: the rows of [ProfileUnitsOfMeasure] for the codes in use, in
    the order of that table. *)
Definition unit_rows (db : DB) (year : option Py.value) : list Units.row :=
  filter (λ u, Units.UnitsID u ∈ unit_codes db year)
    (db_ProfileUnitsOfMeasure db).

(** Lines 104-107: the renaming of the unit codes in use to the
    descriptions of [ProfileUnitsOfMeasure], taken in the order of that
    table's rows; [None] when these lines raise [ValueError].  They do on a
    selection without rows, where the column-wise [apply(pd.Categorical)]
    of line 104 has no column to convert, and when renaming the categories
    raises. *)
Definition resolve_names (db : DB) (year : option Py.value)
    : option (gmap Z string) :=
  match metaprofiles db year with
  | [] => None
  | _ :: _ =>
      rename_categories (unit_codes db year)
        (Units.Description <$> unit_rows db year)
  end.

(** Lines 99-107: the year's metadata with the unit labels resolved. *)
Definition resolve_meta (db : DB) (year : option Py.value)
    : option (list (Meta.row string)) :=
  names ← resolve_names db year;
  Some (relabel names <$> metaprofiles db year).

Definition unit_error : string :=
  "Check spelling and choose V, A, kVA, Hz or kW as units, or leave blank to get profiles of all.".

Definition select_uom (uom : string) (mp : list (Meta.row string)) : list Z :=
  Meta.ProfileId <$> filter (λ m, Meta.UoM m = Some uom) mp.

Definition getMetaProfiles (db : DB) (year : option Py.value)
    (units : option string)
    : Py.outcome (list (Meta.row string) * list Z) :=
  match resolve_meta db year with
  | None => Py.Raised Py.ValueError
  | Some metaprofiles =>
      match units with
      | None => Py.Returned (metaprofiles, Meta.ProfileId <$> metaprofiles)
      | Some units =>
          if decide (units ∈ ["V"; "A"; "kVA"; "kW"]) then
            let uom := Py.strip units +:+ " avg" in
            Py.Returned (metaprofiles, select_uom uom metaprofiles)
          else if decide (units = "Hz") then
            let uom := "Hz" in
            Py.Returned (metaprofiles, select_uom uom metaprofiles)
          else Py.Printed unit_error
      end
  end.

(** *** The unit filter as the specification words it

    The unit label of the data model: the description that the lookup table
    [ProfileUnitsOfMeasure] gives for a numeric code. *)
Definition lookup_label (db : DB) (code : Z) : option string :=
  Units.Description
  <$> head (filter (λ u, Units.UnitsID u = code) (db_ProfileUnitsOfMeasure db)).

(** [getMetaProfiles(year, units)] returns a list that holds exactly those
    of the year's profiles whose unit has the label [label] in the lookup
    table. *)
Definition selects_label (db : DB) (year : Py.value) (units label : string)
    : Prop :=
  ∃ mp plist,
    getMetaProfiles db (Some year) (Some units) = Py.Returned (mp, plist)
    ∧ ∀ p, p ∈ plist
           ↔ ∃ m, m ∈ db_profiles db ∧ Meta.ProfileId m = p
                  ∧ p ∈ profile_ids (getProfileID db (Some year))
                  ∧ Meta.UoM m ≫= lookup_label db = Some label.

(** ** Batch Assembler: [getProfiles] *)

(** Lines 157-158. *)
Definition join_meta (profiles : list Profile.row)
    (mp : list (Meta.row string)) : list Load.row :=
  (λ x : Profile.row * Meta.row string,
     {| Load.ProfileID := Profile.ProfileID x.1;
        Load.Datefield := Profile.Datefield x.1;
        Load.Unitsread := Profile.Unitsread x.1;
        Load.Valid := Profile.Valid x.1;
        Load.Active := Meta.Active x.2;
        Load.RecorderID := Meta.RecorderID x.2;
        Load.UoM := Meta.UoM x.2 |})
  <$> merge_inner Profile.ProfileID Meta.ProfileId profiles mp.

(** [range(a, b)] *)
Definition range (a b : Z) : list Z := seqZ a (b - a).

(** One turn of the loop of lines 144-162 on the variable [df], unbound
    ([None]) before the first assignment: a month whose fetch raises leaves
    [df] as it was. *)
Definition month_step (db : DB) (mp : list (Meta.row string))
    (plist : list Z) (df : option (list Load.row)) (i : Z)
    : option (list Load.row) :=
  match db_month_query db plist i with
  | Some profiles => Some (join_meta profiles mp)
  | None => df
  end.

Definition getProfiles (db : DB) (year : option Py.value)
    (month : option Z) (units : option string)
    : Py.outcome (list Load.row) :=
  match getMetaProfiles db year None with
  | Py.Returned (mp, plist) =>
      match foldl (month_step db mp plist) None (range 1 12) with
      | Some df => Py.Returned df
      | None => Py.Raised Py.UnboundLocalError
      end
  | Py.Printed _ => Py.Raised Py.TypeError
  | Py.Raised e => Py.Raised e
  end.

(** ** Persistence: [saveTables] *)

(** [df.fillna(np.nan)] *)
Definition fillna (c : cell) : cell :=
  match c with
  | CNone => CNaN
  | _ => c
  end.

Definition fillna_frame (a : frame) : frame :=
  (λ r : gmap string cell, fillna <$> r) <$> a.

Definition table_path (k : string) : string :=
  "data/tables/" +:+ k +:+ ".feather".

(** Lines 282-286: every named frame is written to the feather file of its
    name; of two frames with one name the later one stays.  The files are
    told apart by the text of their path, as suits the names the module
    itself saves under ([answers_blob_anon], [answers_char_anon]): plain
    file names, no two of which denote one file. *)
Definition saveTables (names : list string) (dataframes : list frame)
    (files : gmap string frame) : gmap string frame :=
  foldl (λ fs kd, <[table_path kd.1 := fillna_frame kd.2]> fs)
    files (zip names dataframes).

(** ** Anonymization Pass: [anonAns] *)

Definition anstables : list (string * string) :=
  [("Answers_blob", "blobQs.csv"); ("Answers_char", "charQs.csv")].

(** [getData(k)] for the two answer tables. *)
Definition getData_answers (db : DB) (k : string) : option frame :=
  if decide (k = "Answers_blob") then Some (db_Answers_blob db)
  else if decide (k = "Answers_char") then Some (db_Answers_char db)
  else None.

(** Line 311-312: the [(AnswerID, ColumnNo)] pairs to mask. *)
Definition qanon (db : DB) (rules : list Rule.row) : list (Z * Z) :=
  let qs := filter (λ q, Rule.anonymise q = 1) rules in
  (λ x : Answers.row * Rule.row, (Answers.AnswerID x.1, Rule.ColumnNo x.2))
  <$> merge_inner Answers.QuestionaireID Rule.QuestionaireID
        (db_Answers db) qs.

Definition has_answer (x : Z) (row : gmap string cell) : Prop :=
  row !! "AnswerID" = Some (CInt x).

Global Instance has_answer_dec x row : Decision (has_answer x row).
Proof. unfold has_answer. apply _. Defined.

(** Line 315: [a[a.AnswerID == x].index[0]] raises [IndexError] when no row
    has that identifier; [set_value] writes the cell of the first such row,
    adding the column when the label is new. *)
Definition set_anon (a : frame) (rule : Z * Z) : option frame :=
  match list_find (has_answer rule.1) a with
  | None => None
  | Some (i, _) => Some (alter (<[pretty rule.2 := CStr "a"]>) i a)
  end.

Definition anonymise (a : frame) (rules : list (Z * Z)) : option frame :=
  foldl (λ acc rule, a' ← acc; set_anon a' rule) (Some a) rules.

(** One turn of the loop over [anstables]. *)
Definition anon_table (w : World) (kv : string * string)
    : World * Py.outcome unit :=
  match getData_answers (db w) kv.1, anonymise_dir w !! kv.2 with
  | None, _ => (w, Py.Raised Py.DatabaseError)
  | Some _, None => (w, Py.Raised Py.FileNotFoundError)
  | Some a, Some rules =>
      match anonymise a (qanon (db w) rules) with
      | Some a' =>
          ({| db := db w;
              anonymise_dir := anonymise_dir w;
              tables_dir :=
                saveTables [Py.lower kv.1 +:+ "_anon"] [a'] (tables_dir w) |},
           Py.Returned ())
      | None => (w, Py.Raised Py.IndexError)
      end
  end.

Definition anonAns (w : World) : World * Py.outcome unit :=
  foldl (λ st kv,
           match st.2 with
           | Py.Returned _ => anon_table st.1 kv
           | _ => st
           end)
    (w, Py.Returned ()) anstables.

(** *** Years covering the assigned groups

    Every group that the LinkTable assigns belongs to one of the [years]:
    it is a group of the flattened table under that year's label. *)
Definition years_cover (db : DB) (years : list Py.value) : Prop :=
  ∀ l, l ∈ db_LinkTable db → Link.GroupID l ≠ 0 →
       ∃ y, y ∈ years ∧ Link.GroupID l ∈ Flat.GroupID <$> getGroups db (Some y).

(** *** What the rule files mark

    [marked w v x c]: the rule file [v] has a line with [anonymise = 1] for
    column [c] of a questionnaire that the [Answers] table links answer [x]
    to. *)
Definition marked (w : World) (v : string) (x c : Z) : Prop :=
  ∃ rules ans rule,
    anonymise_dir w !! v = Some rules
    ∧ rule ∈ rules ∧ Rule.anonymise rule = 1
    ∧ ans ∈ db_Answers (db w)
    ∧ Answers.QuestionaireID ans = Rule.QuestionaireID rule
    ∧ x = Answers.AnswerID ans ∧ c = Rule.ColumnNo rule.

(** The file the anonymised copy of table [k] is written to. *)
Definition anon_path (k : string) : string :=
  table_path (Py.lower k +:+ "_anon").

(** Every answer table is persisted with the sentinel in each marked cell of
    every row of a linked answer. *)
Definition masks_every_marked_cell (w : World) : Prop :=
  ∀ k v, (k, v) ∈ anstables →
    ∃ out, tables_dir (anonAns w).1 !! anon_path k = Some out
      ∧ ∀ x c row, marked w v x c → row ∈ out → has_answer x row →
                   row !! pretty c = Some (CStr "a").

(** Every linked answer of a marked questionnaire has a row in the answer
    table. *)
Definition answers_present (w : World) : Prop :=
  ∀ k v a, (k, v) ∈ anstables → getData_answers (db w) k = Some a →
    ∀ x c, marked w v x c → ∃ row, row ∈ a ∧ has_answer x row.

Definition rule_files_present (w : World) : Prop :=
  ∀ k v, (k, v) ∈ anstables → is_Some (anonymise_dir w !! v).

(** Two frames with the same [AnswerID] column. *)
Definition same_answers (a a' : frame) : Prop :=
  Forall2 (λ r r' : gmap string cell, r !! "AnswerID" = r' !! "AnswerID") a a'.

(** Every sentinel of [a] is still there in [a']. *)
Definition keeps_sentinels (a a' : frame) : Prop :=
  ∀ j (r : gmap string cell) col,
    a !! j = Some r → r !! col = Some (CStr "a") →
    ∃ r' : gmap string cell, a' !! j = Some r' ∧ r' !! col = Some (CStr "a").

(** [out] is the table [a] after the pass for the rule file [v]: it has the
    same rows of the same answers, and for every marked cell the first row
    of the linked answer holds the sentinel in the marked column. *)
Definition first_rows_masked (w : World) (v : string) (a out : frame)
    : Prop :=
  Forall2 (λ r r', ∀ x, has_answer x r ↔ has_answer x r') a out
  ∧ ∀ x c i row, marked w v x c →
      list_find (has_answer x) a = Some (i, row) →
      ∃ row' : gmap string cell,
        out !! i = Some row' ∧ has_answer x row'
        ∧ row' !! pretty c = Some (CStr "a").

(** [AnswerID] is a key of the table. *)
Definition answer_key (a : frame) : Prop :=
  ∀ x i j (r r' : gmap string cell),
    a !! i = Some r → a !! j = Some r' →
    has_answer x r → has_answer x r' → i = j.

(** ** A small database used to exercise the model *)

Module Example.

Definition group (i : Z) (parent : option Z) (name : string) : Groups.raw :=
  {| Groups.rGroupID := i; Groups.rParentID := parent;
     Groups.rGroupName := name; Groups.rContextID := Some 1 |}.

Definition groups : list Groups.raw :=
  [ group 1 None " Domestic "; group 2 (Some 1) "Eskom LR";
    group 3 (Some 2) "2012 "; group 4 (Some 2) "2005";
    group 5 (Some 3) "Loc A"; group 6 (Some 4) "Loc B";
    group 7 (Some 3) "Loc C" ].

Definition links : list Link.row :=
  [ Link.mkRow 101 0 5; Link.mkRow 102 0 5; Link.mkRow 101 0 7;
    Link.mkRow 103 0 6; Link.mkRow 0 900 5; Link.mkRow 104 0 0 ].

Definition profiles : list (Meta.row Z) :=
  [ Meta.mkRow true 101 "R1" (Some 1); Meta.mkRow true 102 "R1" (Some 4);
    Meta.mkRow true 103 "R2" (Some 4); Meta.mkRow false 104 "R3" (Some 5) ].

Definition units : list Units.row :=
  [ Units.mkRow 1 "A avg"; Units.mkRow 2 "V avg"; Units.mkRow 3 "kVA avg";
    Units.mkRow 4 "kW avg"; Units.mkRow 5 "Hz" ].

(** One reading per requested profile and calendar month; the reading's
    timestamp is the month number. *)
Definition readings (pids : list Z) (i : Z) : list Profile.row :=
  if decide (1 ≤ i ≤ 12)
  then (λ p, Profile.mkRow p i (Some 0) "Y") <$> pids
  else [].

Definition answers : list Answers.row :=
  [ Answers.mkRow 1 10; Answers.mkRow 2 10; Answers.mkRow 3 11 ].

Definition answer_row (x : Z) (text : string) : gmap string cell :=
  <["AnswerID" := CInt x]> (<["5" := CStr text]> ∅).

Definition blob : frame :=
  [ answer_row 1 "Jo Soap"; answer_row 2 "12 Long St"; answer_row 3 "n/a" ].

Definition base (query : list Z → Z → option (list Profile.row))
    (blob_table : frame) : DB :=
  {| db_LinkTable := links;
     db_Groups := groups;
     db_profiles := profiles;
     db_ProfileUnitsOfMeasure := units;
     db_month_query := query;
     db_Answers := answers;
     db_Answers_blob := blob_table;
     db_Answers_char := blob |}.

(** Every monthly fetch succeeds. *)
Definition database : DB := base (λ pids i, Some (readings pids i)) blob.

(** The fetch of month 5 fails, all others succeed. *)
Definition database_may_down : DB :=
  base (λ pids i, if decide (i = 5) then None else Some (readings pids i))
    blob.

Definition rule_files : gmap string (list Rule.row) :=
  <["blobQs.csv" := [Rule.mkRow 10 5 1; Rule.mkRow 11 5 0]]>
    (<["charQs.csv" := [Rule.mkRow 11 5 1]]> ∅).

Definition world : World :=
  {| db := database; anonymise_dir := rule_files; tables_dir := ∅ |}.

(** Answer 2 has no row in [Answers_blob]. *)
Definition world_missing_answer : World :=
  {| db := base (λ pids i, Some (readings pids i))
             [answer_row 1 "Jo Soap"; answer_row 3 "n/a"];
     anonymise_dir := rule_files; tables_dir := ∅ |}.

(** Answer 1 has two rows in [Answers_blob]. *)
Definition world_repeated_answer : World :=
  {| db := base (λ pids i, Some (readings pids i))
             [answer_row 1 "Jo Soap"; answer_row 1 "Jo Soap";
              answer_row 2 "12 Long St"; answer_row 3 "n/a"];
     anonymise_dir := rule_files; tables_dir := ∅ |}.

End Example.

(** The labels the unit filter compares the resolved label with. *)
Definition unit_labels : list (string * string) :=
  [("kW", "kW avg"); ("V", "V avg"); ("A", "A avg"); ("kVA", "kVA avg");
   ("Hz", "Hz")].

Module ExampleUnits.
(** The same database with the unit table listed in another order. *)
Definition database : DB :=
  {| db_LinkTable := Example.links;
     db_Groups := Example.groups;
     db_profiles := Example.profiles;
     db_ProfileUnitsOfMeasure :=
       [ Units.mkRow 4 "kW avg"; Units.mkRow 1 "A avg" ];
     db_month_query := λ pids i, Some (Example.readings pids i);
     db_Answers := Example.answers;
     db_Answers_blob := Example.blob;
     db_Answers_char := Example.blob |}.
End ExampleUnits.

(** ** Fetch estimate: [profileFetchEst] *)

(** Lines 126-131.  The two lines printed are determined by the number of
    profiles [profs] (fetch time [profs*0.7/60] minutes, memory
    [profs*2.69] MB) and the year; the format [%d] wants the year as a
    number and raises [TypeError] before anything is printed otherwise.
    The result is the pair [(profs, year)] the lines are printed from. *)
Definition profileFetchEst (db : DB) (year : option Py.value)
    : Py.exn + nat * Z :=
  let plist := map_str (getProfileID db year) in
  let profs := length plist in
  match year with
  | Some (Py.Int y) => inr (profs, y)
  | _ => inl Py.TypeError
  end.

(** ** Sample of a year: [getSampleProfiles] *)

Module Sample.
(** A row of the sample: as [Load.row], with [Valid] turned into a truth
    value (line 180). *)
Record row := mkRow {
  ProfileID : Z;
  Datefield : Z;
  Unitsread : option Z;
  Valid : option bool;
  Active : bool;
  RecorderID : string;
  UoM : option string }.
End Sample.

(** [x.strip()] mapped through [{'Y': True, 'N': False}]: any other flag
    becomes a missing value. *)
Definition valid_flag (s : string) : option bool :=
  let x := Py.strip s in
  if decide (x = "Y") then Some true
  else if decide (x = "N") then Some false
  else None.

Definition join_sample (profiles : list Profile.row)
    (mp : list (Meta.row string)) : list Sample.row :=
  (λ x : Profile.row * Meta.row string,
     {| Sample.ProfileID := Profile.ProfileID x.1;
        Sample.Datefield := Profile.Datefield x.1;
        Sample.Unitsread := Profile.Unitsread x.1;
        Sample.Valid := valid_flag (Profile.Valid x.1);
        Sample.Active := Meta.Active x.2;
        Sample.RecorderID := Meta.RecorderID x.2;
        Sample.UoM := Meta.UoM x.2 |})
  <$> merge_inner Profile.ProfileID Meta.ProfileId profiles mp.

(** Lines 172-190.  [sample_query pids] is the server's answer to the
    [TOP 1000] query of line 178 for the identifier list [pids], [None] when
    [getData] raises; nothing catches that. *)
Definition getSampleProfiles (db : DB)
    (sample_query : list Z → option (list Profile.row))
    (year : option Py.value) : Py.outcome (list Sample.row) :=
  match getMetaProfiles db year None with
  | Py.Returned (mp, plist) =>
      let mp := take 9 mp in
      let plist := take 9 plist in
      match sample_query plist with
      | None => Py.Raised Py.DatabaseError
      | Some profiles =>
          let df := join_sample profiles mp in
          match profileFetchEst db year with
          | inl e => Py.Raised e
          | inr _ => Py.Returned df
          end
      end
  | Py.Printed _ => Py.Raised Py.TypeError
  | Py.Raised e => Py.Raised e
  end.

(** ** Date range of a profile: [profilePeriod] *)

(** Time stamps count nanoseconds; [date t] is the day of [t]. *)
Definition day : Z := 86400000000000.
Definition minute : Z := 60000000000.
Definition date (t : Z) : Z := t `div` day.

(** A bound of the period as the caller gives it: the text ['YYYY-MM-DD'] of
    a day, or a [datetime]. *)
Inductive date_arg :=
| DateStr (d : Z)
| DateTime (t : Z).

(** Lines 208-209: [strptime(startdate + ' 00:00', ...)]. *)
Definition period_start (a : date_arg) : Z :=
  match a with
  | DateStr d => d * day
  | DateTime t => t
  end.

(** Lines 210-211: [strptime(enddate + ' 23:55', ...)]. *)
Definition period_end (a : date_arg) : Z :=
  match a with
  | DateStr d => d * day + (23 * 60 + 55) * minute
  | DateTime t => t
  end.

Definition minimum (l : list Z) : option Z :=
  foldr (λ x acc, Some (from_option (Z.min x) x acc)) None l.
Definition maximum (l : list Z) : option Z :=
  foldr (λ x acc, Some (from_option (Z.max x) x acc)) None l.

Section profilePeriod.
(** [str] of a time stamp, as the messages show it. *)
Variable show : Z → string.

Definition start_message (dataStart dataEnd : Z) : string :=
  "This profile starts on " +:+ show dataStart +:+ " and ends on "
  +:+ show dataEnd
  +:+ ". Choose a start date that falls within this period.".

Definition end_message (dataStart dataEnd : Z) : string :=
  "This profile starts on " +:+ show dataStart +:+ " and ends on "
  +:+ show dataEnd
  +:+ ". Choose an end date that falls within this period.".

(** Lines 204-229 for a frame whose first and last readings are at
    [dataStart] and [dataEnd].  A bound left out is asked for at the
    prompt, where the user types the day [typed_start] or [typed_end]. *)
Definition profilePeriod_within (dataStart dataEnd : Z)
    (dataframe : list Load.row) (startdate enddate : option date_arg)
    (typed_start typed_end : Z) : Py.outcome (list Load.row) :=
  let startdate := period_start (default (DateStr typed_start) startdate) in
  let enddate := period_end (default (DateStr typed_end) enddate) in
  if decide (startdate > enddate)
  then Py.Printed "Period start must be before period end."
  else
    let startdate :=
      if decide (date startdate = date dataStart) then dataStart
      else startdate in
    let enddate :=
      if decide (date enddate = date dataEnd) then dataEnd else enddate in
    if decide (startdate < dataStart ∨ startdate > dataEnd)
    then Py.Printed (start_message dataStart dataEnd)
    else if decide (enddate < dataStart ∨ enddate > dataEnd)
    then Py.Printed (end_message dataStart dataEnd)
    else
      Py.Returned
        (filter (λ r, startdate ≤ Load.Datefield r ∧ Load.Datefield r ≤ enddate)
           dataframe).

(** [profilePeriod] on a frame with at least one reading; the bounds of an
    empty frame are not dates and the function is left undefined there. *)
Definition profilePeriod (dataframe : list Load.row)
    (startdate enddate : option date_arg) (typed_start typed_end : Z)
    : option (Py.outcome (list Load.row)) :=
  dataStart ← minimum (Load.Datefield <$> dataframe);
  dataEnd ← maximum (Load.Datefield <$> dataframe);
  Some (profilePeriod_within dataStart dataEnd dataframe startdate enddate
          typed_start typed_end).
End profilePeriod.

(** ** Saving every year: [saveAllProfiles] *)

Definition profile_path (mypath : string) (i : Z) : string :=
  mypath +:+ "p" +:+ pretty i +:+ ".feather".

(** One turn of the loop of lines 295-300 on the files written so far: an
    exception of [getProfiles] ends the loop. *)
Definition save_year (db : DB) (mypath : string)
    (st : gmap string (list Load.row) * Py.outcome unit) (i : Z)
    : gmap string (list Load.row) * Py.outcome unit :=
  match st.2 with
  | Py.Returned _ =>
      match getProfiles db (Some (Py.Int i)) None None with
      | Py.Returned df => (<[profile_path mypath i := df]> st.1, Py.Returned ())
      | Py.Printed _ => (st.1, Py.Raised Py.TypeError)
      | Py.Raised e => (st.1, Py.Raised e)
      end
  | _ => st
  end.

Definition saveAllProfiles (db : DB) (mypath : string)
    (yearstart yearend : Z) (files : gmap string (list Load.row))
    : gmap string (list Load.row) * Py.outcome unit :=
  foldl (save_year db mypath) (files, Py.Returned ())
    (range yearstart (yearend + 1)).

(** ** Order of the group index *)

Definition index_le (r1 r2 : Flat.row) : Prop :=
  index_leb (flat_index r1) (flat_index r2) = true.

(** The example database with a server that answers no monthly query. *)
Definition database_down : DB :=
  Example.base (λ _ _, None) Example.blob.

(** A reading taken no later than 23:55 on its day (the docstring of
    [profilePeriod]: days end at 23:55). *)
Definition by_2355 (t : Z) : Prop :=
  t ≤ date t * day + (23 * 60 + 55) * minute.

Definition sample_frame : list Load.row :=
  [ Load.mkRow 101 (3 * day + 5 * minute) (Some 0) "Y" true "R1" None;
    Load.mkRow 101 (4 * day) (Some 0) "Y" true "R1" None;
    Load.mkRow 101 (5 * day + (23 * 60 + 55) * minute) (Some 0) "Y" true "R1"
      None ].
(** * Properties *)

(** ** Lists *)

Section list_facts.
Context {A : Type}.

Lemma filter_ext_elem (P Q : A → Prop)
    `{!∀ x, Decision (P x), !∀ x, Decision (Q x)} (l : list A) :
  (∀ x, x ∈ l → P x ↔ Q x) → filter P l = filter Q l.
Proof.
  induction l as [|a l IH]; intros Hext; [done|].
  rewrite !filter_cons.
  assert (P a ↔ Q a) as Ha by (apply Hext; left).
  rewrite IH by (intros x Hx; apply Hext; by right).
  destruct (decide (P a)), (decide (Q a)); tauto.
Qed.

Lemma filter_fmap {B} (f : A → B) (P : B → Prop)
    `{!∀ y, Decision (P y)} (l : list A) :
  filter P (f <$> l) = f <$> filter (λ x, P (f x)) l.
Proof.
  induction l as [|a l IH]; [done|].
  rewrite fmap_cons, !filter_cons, IH.
  by destruct (decide (P (f a))).
Qed.

Lemma filter_singleton_elem (P Q : A → Prop)
    `{!∀ x, Decision (P x), !∀ x, Decision (Q x)} (l : list A) (a : A) :
  filter P l = [a] → Q a → filter P (filter Q l) = [a].
Proof.
  intros Hl Ha.
  transitivity (filter Q (filter P l)).
  - rewrite !list_filter_filter. apply list_filter_iff. tauto.
  - rewrite Hl, filter_cons_True by done. by rewrite filter_nil.
Qed.
End list_facts.

(** ** The group hierarchy *)

Lemma insert_row_perm r t : insert_row r t ≡ₚ r :: t.
Proof.
  induction t as [|r' t IH]; cbn [insert_row]; [done|].
  case (index_leb (flat_index r) (flat_index r')); [reflexivity|].
  rewrite IH. apply Permutation_swap.
Qed.

Lemma sort_index_perm t : sort_index t ≡ₚ t.
Proof.
  induction t as [|r t IH]; simpl; [done|].
  by rewrite insert_row_perm, IH.
Qed.

Lemma at_level_succ groups k g :
  at_level groups (S (S k)) g
  = bool_decide (Groups.ParentID g ≠ 0)
    && match parents groups g with
       | [p] => at_level groups (S k) p
       | _ => false
       end.
Proof. done. Qed.

Lemma at_level_succ_inv groups k g :
  at_level groups (S (S k)) g →
  Groups.ParentID g ≠ 0
  ∧ ∃ p, parents groups g = [p] ∧ at_level groups (S k) p.
Proof.
  rewrite at_level_succ. intros [Hne Hp]%andb_True.
  apply bool_decide_unpack in Hne. split; [done|].
  destruct (parents groups g) as [|p [|]]; try done. by exists p.
Qed.

Section strict_tree.
Variable groups : list Groups.row.
Hypothesis Htree : strict_tree groups.

Lemma parent_id_nonzero g p :
  p ∈ groups → Groups.GroupID p = Groups.ParentID g →
  Groups.ParentID g ≠ 0.
Proof.
  intros Hp Heq H0. destruct Htree as [Hz _]. apply Hz.
  rewrite <-H0, <-Heq. by apply list_elem_of_fmap_2.
Qed.

Lemma unique_parent g p :
  g ∈ groups → p ∈ groups → Groups.GroupID p = Groups.ParentID g →
  parents groups g = [p].
Proof.
  intros Hg Hp Heq.
  assert (Groups.ParentID g ≠ 0) as Hne by eauto using parent_id_nonzero.
  destruct Htree as [_ Hlev]. rewrite Forall_forall in Hlev.
  assert (∃ q, parents groups g = [q]) as [q Hq].
  { destruct (Hlev g Hg) as [H1|[H|[H|H]]].
    - simpl in H1. by apply bool_decide_unpack in H1.
    - apply at_level_succ_inv in H as (_ & q & ? & _); eauto.
    - apply at_level_succ_inv in H as (_ & q & ? & _); eauto.
    - apply at_level_succ_inv in H as (_ & q & ? & _); eauto. }
  assert (p ∈ parents groups g) as Hin by by apply list_elem_of_filter.
  rewrite Hq in Hin. apply list_elem_of_singleton in Hin. by subst.
Qed.

(** The membership tests of lines 246-250 compute the tree levels. *)
Lemma children_of_level k :
  children_of (filter (λ g, at_level groups (S k) g) groups) groups
  = filter (λ g, at_level groups (S (S k)) g) groups.
Proof.
  apply filter_ext_elem. intros g Hg. split.
  - intros (p & Heq & [Hp Hin]%list_elem_of_filter)%list_elem_of_fmap.
    rewrite at_level_succ.
    rewrite (unique_parent g p) by done.
    apply andb_True. split; [|done].
    apply bool_decide_pack. eauto using parent_id_nonzero.
  - intros (_ & p & Hpar & Hp)%at_level_succ_inv.
    assert (p ∈ parents groups g) as [Heq Hin]%list_elem_of_filter
      by (rewrite Hpar; left).
    apply list_elem_of_fmap. exists p. split; [done|].
    by apply list_elem_of_filter.
Qed.

Lemma groups_level_1_spec :
  groups_level_1 groups = filter (λ g, at_level groups 1 g) groups.
Proof.
  apply list_filter_iff. intros g. simpl.
  by rewrite bool_decide_spec.
Qed.

Lemma groups_level_2_spec :
  groups_level_2 groups = filter (λ g, at_level groups 2 g) groups.
Proof.
  unfold groups_level_2. rewrite groups_level_1_spec.
  apply children_of_level.
Qed.

Lemma groups_level_3_spec :
  groups_level_3 groups = filter (λ g, at_level groups 3 g) groups.
Proof.
  unfold groups_level_3. rewrite groups_level_2_spec.
  apply children_of_level.
Qed.

Lemma groups_level_4_spec :
  groups_level_4 groups = filter (λ g, at_level groups 4 g) groups.
Proof.
  unfold groups_level_4. rewrite groups_level_3_spec.
  apply children_of_level.
Qed.
End strict_tree.

Section merge_facts.
Context {L R : Type}.
Variables (left_on : L → option Z) (right_on : R → Z).

Lemma merge_left_cons l ls rs :
  merge_left left_on right_on (l :: ls) rs
  = match filter (λ r, left_on l = Some (right_on r)) rs with
    | [] => [(l, None)]
    | ms => (λ r, (l, Some r)) <$> ms
    end ++ merge_left left_on right_on ls rs.
Proof. done. Qed.

(** When every left key matches exactly one right row, the left join
    keeps the left rows one for one and fills in every right column. *)
Lemma merge_left_unique (Q : L → R → Prop) ls rs :
  Forall (λ l, ∃ r,
    filter (λ r, left_on l = Some (right_on r)) rs = [r] ∧ Q l r) ls →
  fst <$> merge_left left_on right_on ls rs = ls
  ∧ Forall (λ x, ∃ r, x.2 = Some r ∧ Q x.1 r)
      (merge_left left_on right_on ls rs).
Proof.
  induction 1 as [|l ls (r & Hr & HQ) _ [IH1 IH2]]; [done|].
  rewrite merge_left_cons, Hr. cbn -[merge_left]. split.
  - by rewrite IH1.
  - constructor; [|done]. by exists r.
Qed.
End merge_facts.

Lemma leaf_columns_pretty_row (z : recon_row) :
  leaf_columns (pretty_row z) = group_columns z.1.1.1.
Proof. by destruct z as [[[g4 m3] m2] m1]. Qed.

Section reconstruct.
Variable groups : list Groups.row.
Hypothesis Htree : strict_tree groups.

Lemma level_match k g :
  at_level groups (S (S k)) g →
  ∃ p, filter (λ r, Some (Groups.ParentID g) = Some (Groups.sGroupID r))
         (slim <$> filter (λ p, at_level groups (S k) p) groups)
       = [slim p]
       ∧ at_level groups (S k) p.
Proof.
  intros (_ & p & Hpar & Hp)%at_level_succ_inv. exists p. split; [|done].
  rewrite filter_fmap.
  rewrite (list_filter_iff _ (λ x, Groups.GroupID x = Groups.ParentID g))
    by (intros x; simpl; split; congruence).
  by rewrite (filter_singleton_elem _ _ _ p).
Qed.

(** On a strict tree the three left joins find every ancestor. *)
Lemma reconstruct_strict_tree :
  leaf_columns <$> reconstruct groups
  = group_columns <$> filter (λ g, at_level groups 4 g) groups
  ∧ Forall (λ r, is_Some (Flat.Dom_NonDom r) ∧ is_Some (Flat.Survey r)
                 ∧ is_Some (Flat.Year r)) (reconstruct groups).
Proof.
  unfold reconstruct.
  rewrite groups_level_1_spec, groups_level_2_spec, groups_level_3_spec,
    groups_level_4_spec by done.
  set (l4 := filter (λ g, at_level groups 4 g) groups).
  set (g3 := slim <$> filter (λ g, at_level groups 3 g) groups).
  set (g2 := slim <$> filter (λ g, at_level groups 2 g) groups).
  set (g1 := slim <$> filter (λ g, at_level groups 1 g) groups).
  set (recon3 := merge_left _ _ l4 g3).
  set (recon2 := merge_left _ _ recon3 g2).
  set (recon1 := merge_left _ _ recon2 g1).
  destruct (merge_left_unique (λ g, Some (Groups.ParentID g))
    Groups.sGroupID (λ _ r, ∃ p, r = slim p ∧ at_level groups 3 p) l4 g3)
    as [E3 F3].
  { apply Forall_forall. intros g [Hg _]%list_elem_of_filter.
    destruct (level_match 2 g Hg) as (p & ? & ?). eauto. }
  fold recon3 in E3, F3.
  destruct (merge_left_unique (λ r, Groups.sParentID <$> r.2)
    Groups.sGroupID
    (λ x r, is_Some x.2 ∧ ∃ p, r = slim p ∧ at_level groups 2 p) recon3 g2)
    as [E2 F2].
  { eapply Forall_impl; [exact F3|]. simpl.
    intros x (r & Hx & p & -> & Hp). rewrite Hx. simpl.
    destruct (level_match 1 p Hp) as (q & ? & ?). eauto 10. }
  fold recon2 in E2, F2.
  destruct (merge_left_unique (λ r, Groups.sParentID <$> r.2)
    Groups.sGroupID
    (λ y _, is_Some y.2 ∧ is_Some y.1.2) recon2 g1)
    as [E1 F1].
  { eapply Forall_impl; [exact F2|]. simpl.
    intros y (r & Hy & Hx & p & -> & Hp). rewrite Hy. simpl.
    destruct (level_match 0 p Hp) as (q & ? & ?). eauto 10. }
  fold recon1 in E1, F1.
  split.
  - rewrite <-list_fmap_compose.
    rewrite <-E3, <-E2, <-E1, <-!list_fmap_compose.
    apply list_fmap_ext. intros _ z _. apply leaf_columns_pretty_row.
  - apply Forall_fmap. eapply Forall_impl; [exact F1|].
    intros [[[g4 m3] m2] m1] (r & H1 & H2 & H3). simpl in *.
    subst m1. destruct H2 as [? ->], H3 as [? ->]. simpl. eauto.
Qed.
End reconstruct.

(** C3: on a Group table that is a strict four-level tree, [getGroups()]
    has exactly one row per level-4 (location) group, carrying that group's
    own columns, and in every row the ancestor names [Dom_NonDom], [Survey]
    and [Year] are present. *)
Theorem getGroups_one_row_per_location (db : DB) :
  let groups := normalise <$> db_Groups db in
  strict_tree groups →
  leaf_columns <$> getGroups db None
    ≡ₚ group_columns <$> filter (λ g, at_level groups 4 g) groups
  ∧ Forall (λ r, is_Some (Flat.Dom_NonDom r) ∧ is_Some (Flat.Survey r)
                 ∧ is_Some (Flat.Year r)) (getGroups db None).
Proof.
  intros groups Htree. unfold getGroups. fold groups.
  destruct (reconstruct_strict_tree _ Htree) as [Hrows Hnames].
  split.
  - by rewrite sort_index_perm, Hrows.
  - by rewrite sort_index_perm.
Qed.

Lemma getGroups_one_row_per_location_witness :
  strict_tree (normalise <$> db_Groups Example.database)
  ∧ leaf_columns <$> getGroups Example.database None
      ≡ₚ [(5, "Loc A", Some 1); (6, "Loc B", Some 1); (7, "Loc C", Some 1)].
Proof.
  assert (strict_tree (normalise <$> db_Groups Example.database)) as Htree.
  { split; [by apply (bool_decide_unpack _)|].
    repeat constructor; vm_compute; tauto. }
  split; [exact Htree|].
  destruct (getGroups_one_row_per_location Example.database Htree) as [-> _].
  by vm_compute.
Defined.

(** C4: [getGroups(year)] is the flattened table restricted to the rows whose
    [Year] label is the text [str(year)]: labels are compared as strings,
    after the reconstruction. *)
Theorem getGroups_year_exact (db : DB) (year : Py.value) :
  getGroups db (Some year)
  = filter (λ r, Flat.Year r = Some (Py.str year)) (getGroups db None)
  ∧ ∀ r, r ∈ getGroups db (Some year)
         ↔ r ∈ getGroups db None ∧ Flat.Year r = Some (Py.str year).
Proof.
  split; [done|].
  intros r. unfold getGroups. rewrite list_elem_of_filter. tauto.
Qed.

(** The year label is matched whole and as text: 2012 selects the groups
    under the (stripped) label "2012", while neither a prefix of the label
    nor another numeral of the same number selects anything. *)
Example getGroups_year_2012 :
  Flat.GroupID <$> getGroups Example.database (Some (Py.Int 2012)) = [5; 7]
  ∧ getGroups Example.database (Some (Py.Str "201")) = []
  ∧ getGroups Example.database (Some (Py.Str "02012")) = []
  ∧ getGroups Example.database (Some (Py.Str "2012 ")) = [].
Proof. by vm_compute. Qed.

(** ** The identifier resolver *)

Section unique.
Context `{EqDecision A}.

Lemma unique_fold_spec (l acc : list A) :
  NoDup acc →
  NoDup (foldl unique_step acc l)
  ∧ ∀ x, x ∈ foldl unique_step acc l ↔ x ∈ acc ∨ x ∈ l.
Proof.
  revert acc. induction l as [|a l IH]; intros acc Hacc; simpl.
  - split; [done|]. intros x. rewrite elem_of_nil. tauto.
  - destruct (IH (unique_step acc a)) as [Hnd Hin].
    { unfold unique_step. case_decide; [done|].
      apply NoDup_app. split_and!; [done| |apply NoDup_singleton].
      intros x Hx ->%list_elem_of_singleton. done. }
    split; [done|]. intros x. rewrite Hin, elem_of_cons. unfold unique_step.
    case_decide.
    + split; [tauto|]. intros [?|[->|?]]; tauto.
    + rewrite elem_of_app, list_elem_of_singleton. tauto.
Qed.

Lemma NoDup_unique (l : list A) : NoDup (unique l).
Proof. apply unique_fold_spec, NoDup_nil_2. Qed.

Lemma elem_of_unique (l : list A) x : x ∈ unique l ↔ x ∈ l.
Proof.
  unfold unique.
  destruct (unique_fold_spec l [] (NoDup_nil_2)) as [_ ->].
  rewrite elem_of_nil. tauto.
Qed.
End unique.

Section merge_inner_facts.
Context {L R : Type}.
Variables (left_on : L → Z) (right_on : R → Z).

(** The inner join holds the pairs of a left and a right row with one key. *)
Lemma elem_of_merge_inner (x : L * R) ls rs :
  x ∈ merge_inner left_on right_on ls rs
  ↔ x.1 ∈ ls ∧ x.2 ∈ rs ∧ left_on x.1 = right_on x.2.
Proof.
  unfold merge_inner. rewrite list_elem_of_bind. split.
  - intros (k & Hx & _). apply list_elem_of_bind in Hx as (l & Hx & Hl).
    apply list_elem_of_fmap in Hx as (r & -> & Hr).
    apply list_elem_of_filter in Hl as [Hkl Hl].
    apply list_elem_of_filter in Hr as [Hkr Hr]. simpl.
    split; [done|]. split; [done|]. by rewrite Hkl, Hkr.
  - destruct x as [l r]. simpl. intros (Hl & Hr & Heq).
    exists (left_on l). split.
    + apply list_elem_of_bind. exists l. split.
      * apply list_elem_of_fmap. exists r. split; [done|].
        by apply list_elem_of_filter.
      * by apply list_elem_of_filter.
    + apply elem_of_unique, list_elem_of_fmap. by exists l.
Qed.
End merge_inner_facts.

Lemma elem_of_profile_ids_all (db : DB) (p : Z) :
  p ∈ profile_ids (getProfileID db None)
  ↔ ∃ l, l ∈ db_LinkTable db ∧ Link.ProfileID l = p
         ∧ Link.GroupID l ≠ 0 ∧ p ≠ 0.
Proof.
  simpl. unfold allprofiles. rewrite list_elem_of_fmap. split.
  - intros (l & -> & [[??] ?]%list_elem_of_filter). eauto.
  - intros (l & ? & <- & ? & ?). exists l. split; [done|].
    by apply list_elem_of_filter.
Qed.

Lemma elem_of_profile_ids_year (db : DB) (year : Py.value) (p : Z) :
  p ∈ profile_ids (getProfileID db (Some year))
  ↔ ∃ l, l ∈ db_LinkTable db ∧ Link.ProfileID l = p
         ∧ Link.GroupID l ≠ 0 ∧ p ≠ 0
         ∧ Link.GroupID l ∈ Flat.GroupID <$> getGroups db (Some year).
Proof.
  simpl. rewrite elem_of_unique, list_elem_of_fmap.
  unfold allprofiles. split.
  - intros (l & -> & [? [[??] ?]%list_elem_of_filter]%list_elem_of_filter).
    eauto 10.
  - intros (l & ? & <- & ? & ? & ?). exists l. split; [done|].
    apply list_elem_of_filter. split; [done|].
    by apply list_elem_of_filter.
Qed.

(** What the resolver's result carries: the identifiers of the link rows
    with a non-zero group and a non-zero identifier, profiles for
    [getProfileID], answers for [getAnswerID].  With a year the profile
    identifiers are distinct and restricted to the rows linked to one of
    that year's groups. *)
Lemma resolver_nonzero_assignment (db : DB) :
  (∀ p, p ∈ profile_ids (getProfileID db None)
        ↔ ∃ l, l ∈ db_LinkTable db ∧ Link.ProfileID l = p
               ∧ Link.GroupID l ≠ 0 ∧ p ≠ 0)
  ∧ (∀ year,
       NoDup (profile_ids (getProfileID db (Some year)))
       ∧ ∀ p, p ∈ profile_ids (getProfileID db (Some year))
              ↔ ∃ l, l ∈ db_LinkTable db ∧ Link.ProfileID l = p
                     ∧ Link.GroupID l ≠ 0 ∧ p ≠ 0
                     ∧ Link.GroupID l
                         ∈ Flat.GroupID <$> getGroups db (Some year))
  ∧ (∀ a, a ∈ Link.AnswerID <$> getAnswerID db
          ↔ ∃ l, l ∈ db_LinkTable db ∧ Link.AnswerID l = a
                 ∧ Link.GroupID l ≠ 0 ∧ a ≠ 0).
Proof.
  split_and!.
  - apply elem_of_profile_ids_all.
  - intros year. split; [apply NoDup_unique|].
    apply elem_of_profile_ids_year.
  - intros a. unfold getAnswerID. rewrite list_elem_of_fmap. split.
    + intros (l & -> & [[??] ?]%list_elem_of_filter). eauto.
    + intros (l & ? & <- & ? & ?). exists l. split; [done|].
      by apply list_elem_of_filter.
Qed.

(** C8: called without a year on the example database, [getProfileID]
    hands back the filtered link rows themselves and not the distinct
    identifiers its docstring announces: profile 101, assigned to two
    groups, is there twice, where the branch for a year passes the
    identifiers through [unique()].  A caller that iterates the result with
    [map(str, ...)] gets the three column labels, so [getMetaProfiles]
    without a year selects no profile and raises. *)
Theorem getProfileID_no_year_returns_link_rows :
  getProfileID Example.database None
  = Frame [Link.mkRow 101 0 5; Link.mkRow 102 0 5; Link.mkRow 101 0 7;
           Link.mkRow 103 0 6]
  ∧ ¬ NoDup (profile_ids (getProfileID Example.database None))
  ∧ getProfileID Example.database (Some (Py.Int 2012)) = Series [101; 102]
  ∧ map_str (getProfileID Example.database None)
    = ["ProfileID"; "AnswerID"; "GroupID"]
  ∧ metaprofiles Example.database None = []
  ∧ getMetaProfiles Example.database None None = Py.Raised Py.ValueError.
Proof.
  split; [by vm_compute|]. split; [|by vm_compute].
  intros Hnd.
  change (NoDup [101; 102; 101; 103]) in Hnd.
  apply NoDup_cons in Hnd as [Hnotin _]. apply Hnotin. right. left.
Qed.



(** ** The metadata filter *)

Lemma zip_fmap_same {A B C} (f : A → B) (g : A → C) (l : list A) :
  zip (f <$> l) (g <$> l) = (λ x, (f x, g x)) <$> l.
Proof.
  induction l as [|a l IH]; [done|].
  rewrite !fmap_cons. cbn [zip_with]. by f_equal.
Qed.

Lemma elem_of_metaprofiles_year (db : DB) (year : Py.value) (m : Meta.row Z) :
  m ∈ metaprofiles db (Some year)
  ↔ m ∈ db_profiles db
    ∧ Meta.ProfileId m ∈ profile_ids (getProfileID db (Some year)).
Proof.
  unfold metaprofiles. rewrite list_elem_of_filter. simpl.
  rewrite (list_elem_of_fmap_inj (λ z : Z, pretty z)). tauto.
Qed.

Lemma getMetaProfiles_label (db : DB) (year : option Py.value)
    (units label : string) mp :
  (units, label) ∈ unit_labels →
  resolve_meta db year = Some mp →
  getMetaProfiles db year (Some units)
  = Py.Returned (mp, select_uom label mp).
Proof.
  intros Hu Hmp. unfold getMetaProfiles. rewrite Hmp.
  unfold unit_labels in Hu.
  repeat (apply elem_of_cons in Hu as [[= -> ->]|Hu]); try done.
  by apply elem_of_nil in Hu.
Qed.

(** The steps before the unit test (lines 99-107) complete when the year
    selects a profile and the lookup table has as many rows for the unit
    codes in use as there are such codes, with distinct descriptions. *)
Lemma resolve_meta_is_Some (db : DB) (year : option Py.value) :
  is_Some (resolve_meta db year)
  ↔ metaprofiles db year ≠ []
    ∧ length (unit_rows db year) = length (unit_codes db year)
    ∧ NoDup (Units.Description <$> unit_rows db year).
Proof.
  unfold resolve_meta, resolve_names, rename_categories.
  destruct (metaprofiles db year) as [|m mp] eqn:Hmp.
  - split; [by intros [? [=]]|]. by intros [? _].
  - rewrite length_fmap. case_decide as Hok; simpl.
    + split; [|by eauto]. intros _. by destruct Hok.
    + split; [by intros [? [=]]|]. intros (_ & ? & ?). by destruct Hok.
Qed.

Lemma resolve_meta_None (db : DB) (year : option Py.value) :
  resolve_meta db year = None
  ↔ ¬ (metaprofiles db year ≠ []
       ∧ length (unit_rows db year) = length (unit_codes db year)
       ∧ NoDup (Units.Description <$> unit_rows db year)).
Proof. by rewrite <-resolve_meta_is_Some, eq_None_not_Some. Qed.

Lemma NoDup_unit_codes (db : DB) (year : option Py.value) :
  NoDup (unit_codes db year).
Proof.
  unfold unit_codes, categories. rewrite merge_sort_Permutation.
  apply NoDup_unique.
Qed.

Lemma elem_of_unit_codes (db : DB) (year : option Py.value) (code : Z) :
  code ∈ unit_codes db year
  ↔ ∃ m, m ∈ metaprofiles db year ∧ Meta.UoM m = Some code.
Proof.
  unfold unit_codes, categories.
  rewrite merge_sort_Permutation, elem_of_unique, list_elem_of_omap.
  setoid_rewrite list_elem_of_fmap. split.
  - intros (o & (m & -> & Hm) & Ho). eauto.
  - intros (m & Hm & Hc). exists (Some code). split; [|done].
    exists m. by rewrite Hc.
Qed.

(** Renaming by position: when the rows come in the order of the codes, once
    each and with distinct descriptions, every code gets the description of
    its own row. *)
Lemma rename_categories_rows (codes : list Z) (rows : list Units.row) :
  Units.UnitsID <$> rows = codes →
  NoDup codes →
  NoDup (Units.Description <$> rows) →
  ∃ names, rename_categories codes (Units.Description <$> rows) = Some names
    ∧ ∀ u, u ∈ rows → names !! Units.UnitsID u = Some (Units.Description u).
Proof.
  intros <- Hnd Hdistinct. unfold rename_categories.
  rewrite decide_True by (split; [by rewrite !length_fmap|done]).
  eexists. split; [done|]. intros u Hu.
  rewrite zip_fmap_same.
  apply elem_of_list_to_map_1.
  - by rewrite <-list_fmap_compose.
  - apply list_elem_of_fmap. by exists u.
Qed.

Lemma fmap_NoDup_eq {A B} (f : A → B) (l : list A) x y :
  NoDup (f <$> l) → x ∈ l → y ∈ l → f x = f y → x = y.
Proof.
  induction l as [|a l IH]; intros Hnd Hx Hy Heq; [by apply elem_of_nil in Hx|].
  rewrite fmap_cons in Hnd. apply NoDup_cons in Hnd as [Ha Hnd].
  apply elem_of_cons in Hx as [->|Hx]; apply elem_of_cons in Hy as [->|Hy].
  - done.
  - destruct Ha. rewrite Heq. by apply list_elem_of_fmap_2.
  - destruct Ha. rewrite <-Heq. by apply list_elem_of_fmap_2.
  - by apply IH.
Qed.

(** With the rows for the codes in use listed once each, the lookup table
    gives a code in use the description of its one row. *)
Lemma lookup_label_unit_rows (db : DB) (year : option Py.value)
    (u : Units.row) :
  Units.UnitsID <$> unit_rows db year = unit_codes db year →
  u ∈ unit_rows db year →
  lookup_label db (Units.UnitsID u) = Some (Units.Description u).
Proof.
  intros Hcodes Hu. unfold lookup_label.
  assert (NoDup (Units.UnitsID <$> unit_rows db year)) as Hnd
    by (rewrite Hcodes; apply NoDup_unit_codes).
  assert (u ∈ db_ProfileUnitsOfMeasure db) as Hin
    by by apply list_elem_of_filter in Hu as [_ ?].
  assert (Units.UnitsID u ∈ unit_codes db year) as Hcode
    by by apply list_elem_of_filter in Hu as [? _].
  destruct (filter _ (db_ProfileUnitsOfMeasure db)) as [|u' t] eqn:E.
  - assert (u ∈ filter (λ u0, Units.UnitsID u0 = Units.UnitsID u)
                  (db_ProfileUnitsOfMeasure db)) as Hf
      by by apply list_elem_of_filter.
    rewrite E in Hf. by apply elem_of_nil in Hf.
  - assert (u' ∈ filter (λ u0, Units.UnitsID u0 = Units.UnitsID u)
                   (db_ProfileUnitsOfMeasure db)) as Hf
      by (rewrite E; left).
    apply list_elem_of_filter in Hf as [Heq Hin'].
    assert (u' ∈ unit_rows db year) as Hu'.
    { apply list_elem_of_filter. by rewrite Heq. }
    simpl. by rewrite (fmap_NoDup_eq Units.UnitsID _ u' u Hnd Hu' Hu Heq).
Qed.

(** C6 (amended): for a year with at least one profile, when the lookup
    table lists the unit codes in use once each, in ascending order of
    [UnitsID] and with distinct descriptions, [getMetaProfiles(year, "kW")]
    returns a list holding exactly those of the year's profiles whose unit
    has the label "kW avg" in the lookup table; likewise "V avg", "A avg",
    "kVA avg" and "Hz" for the units V, A, kVA and Hz. *)
Theorem getMetaProfiles_unit_filter (db : DB) (year : Py.value)
    (units label : string) :
  (units, label) ∈ unit_labels →
  metaprofiles db (Some year) ≠ [] →
  Units.UnitsID <$> unit_rows db (Some year) = unit_codes db (Some year) →
  NoDup (Units.Description <$> unit_rows db (Some year)) →
  selects_label db year units label.
Proof.
  intros Hu Hne Hcodes Hdistinct.
  destruct (rename_categories_rows _ _ Hcodes (NoDup_unit_codes _ _)
              Hdistinct) as (names & Hnames & Hrows).
  set (mp := relabel names <$> metaprofiles db (Some year)).
  assert (resolve_meta db (Some year) = Some mp) as Hmp.
  { unfold resolve_meta, resolve_names.
    destruct (metaprofiles db (Some year)); [done|]. by rewrite Hnames. }
  assert (∀ m, m ∈ metaprofiles db (Some year) →
            Meta.UoM m ≫= (names !!.) = Meta.UoM m ≫= lookup_label db)
    as Hlabel.
  { intros m Hm. destruct (Meta.UoM m) as [code|] eqn:Hc; [|done]. simpl.
    assert (code ∈ Units.UnitsID <$> unit_rows db (Some year)) as Hin.
    { rewrite Hcodes. apply elem_of_unit_codes. eauto. }
    apply list_elem_of_fmap in Hin as (u & -> & Hin).
    by rewrite (Hrows u Hin), (lookup_label_unit_rows db _ u Hcodes Hin). }
  exists mp, (select_uom label mp). split.
  - by apply getMetaProfiles_label.
  - intros p. unfold select_uom, mp.
    rewrite list_elem_of_fmap. setoid_rewrite list_elem_of_filter.
    setoid_rewrite list_elem_of_fmap. split.
    + intros (m' & -> & Hlab & m & -> & Hm). simpl in Hlab.
      rewrite (Hlabel m Hm) in Hlab.
      apply elem_of_metaprofiles_year in Hm as [??]. exists m. eauto.
    + intros (m & Hm & <- & Hy & Hlab). exists (relabel names m).
      assert (m ∈ metaprofiles db (Some year)) as Hsel
        by by apply elem_of_metaprofiles_year.
      split; [done|]. split; [simpl; by rewrite (Hlabel m Hsel)|].
      by exists m.
Qed.

Lemma getMetaProfiles_unit_filter_witness :
  ("kW", "kW avg") ∈ unit_labels
  ∧ metaprofiles Example.database (Some (Py.Int 2012)) ≠ []
  ∧ Units.UnitsID <$> unit_rows Example.database (Some (Py.Int 2012))
    = unit_codes Example.database (Some (Py.Int 2012))
  ∧ NoDup (Units.Description
             <$> unit_rows Example.database (Some (Py.Int 2012)))
  ∧ selects_label Example.database (Py.Int 2012) "kW" "kW avg".
Proof.
  assert (("kW", "kW avg") ∈ unit_labels) as Hu by left.
  assert (metaprofiles Example.database (Some (Py.Int 2012)) ≠ []) as Hne
    by by vm_compute.
  assert (Units.UnitsID <$> unit_rows Example.database (Some (Py.Int 2012))
          = unit_codes Example.database (Some (Py.Int 2012))) as Hcodes
    by by vm_compute.
  assert (NoDup (Units.Description
                   <$> unit_rows Example.database (Some (Py.Int 2012))))
    as Hdistinct
    by (apply (bool_decide_unpack _); by vm_compute).
  split; [exact Hu|]. split; [exact Hne|]. split; [exact Hcodes|].
  split; [exact Hdistinct|].
  exact (getMetaProfiles_unit_filter Example.database (Py.Int 2012)
           "kW" "kW avg" Hu Hne Hcodes Hdistinct).
Defined.

Example getMetaProfiles_kW_2012 :
  getMetaProfiles Example.database (Some (Py.Int 2012)) (Some "kW")
  = Py.Returned
      ([Meta.mkRow true 101 "R1" (Some "A avg");
        Meta.mkRow true 102 "R1" (Some "kW avg")], [102]).
Proof. by vm_compute. Qed.

(** With the rows of the unit table in another order the labels move with the
    position: code 1 (A avg) is labelled "kW avg". *)
Example resolve_names_by_position :
  getMetaProfiles ExampleUnits.database (Some (Py.Int 2012)) (Some "kW")
  = Py.Returned
      ([Meta.mkRow true 101 "R1" (Some "kW avg");
        Meta.mkRow true 102 "R1" (Some "A avg")], [101]).
Proof. by vm_compute. Qed.

(** C6 as stated fails on two inputs.  Where the lookup table lists code 4
    (kW avg) before code 1 (A avg), the list returned for kW lacks profile
    102, whose unit the table labels "kW avg" (and holds profile 101, an
    "A avg" profile).  For a year without profiles the call raises and
    returns no list. *)
Lemma getMetaProfiles_kW_not_by_label :
  ¬ selects_label ExampleUnits.database (Py.Int 2012) "kW" "kW avg"
  ∧ ¬ selects_label Example.database (Py.Int 1999) "kW" "kW avg".
Proof.
  split; intros (mp & plist & Hret & Hiff).
  - rewrite resolve_names_by_position in Hret. injection Hret as <- <-.
    assert (102 ∈ [101]) as Hbad; [|by apply list_elem_of_singleton in Hbad].
    apply Hiff. exists (Meta.mkRow true 102 "R1" (Some 4)).
    split; [right; left|]. split; [done|]. split; [|by vm_compute].
    change (102 ∈ [101; 102]). right; left.
  - by vm_compute in Hret.
Qed.

(** C7 (amended): for a unit string outside the supported enumeration
    [getMetaProfiles] never returns data.  It prints the message asking for
    one of V, A, kVA, Hz or kW and returns [None] exactly when the steps
    before the unit test complete: the year selects a profile and the
    lookup table has as many rows for the unit codes in use as there are
    such codes, with distinct descriptions.  Otherwise those steps raise. *)
Theorem getMetaProfiles_unsupported_units (db : DB)
    (year : option Py.value) (units : string) :
  units ∉ ["V"; "A"; "kVA"; "Hz"; "kW"] →
  (∀ data, getMetaProfiles db year (Some units) ≠ Py.Returned data)
  ∧ (getMetaProfiles db year (Some units) = Py.Printed unit_error
     ↔ metaprofiles db year ≠ []
       ∧ length (unit_rows db year) = length (unit_codes db year)
       ∧ NoDup (Units.Description <$> unit_rows db year))
  ∧ (getMetaProfiles db year (Some units) = Py.Printed unit_error
     ∨ getMetaProfiles db year (Some units) = Py.Raised Py.ValueError).
Proof.
  intros Hu.
  assert (units ∉ ["V"; "A"; "kVA"; "kW"]) as H4.
  { rewrite !elem_of_cons in Hu. rewrite !elem_of_cons. tauto. }
  assert (units ≠ "Hz") as Hz.
  { rewrite !elem_of_cons in Hu. tauto. }
  rewrite <-resolve_meta_is_Some. unfold getMetaProfiles.
  destruct (resolve_meta db year) as [mp|].
  - rewrite decide_False by done. rewrite decide_False by done.
    split; [done|]. split; [|by left]. split; [by eauto|done].
  - split; [done|]. split; [|by right]. split; [done|]. by intros [? [=]].
Qed.

Lemma getMetaProfiles_unsupported_units_witness :
  ("W" ∉ ["V"; "A"; "kVA"; "Hz"; "kW"])
  ∧ getMetaProfiles Example.database (Some (Py.Int 2012)) (Some "W")
    = Py.Printed unit_error.
Proof.
  assert ("W" ∉ ["V"; "A"; "kVA"; "Hz"; "kW"]) as Hu
    by by apply (bool_decide_unpack _).
  split; [exact Hu|].
  destruct (getMetaProfiles_unsupported_units Example.database
              (Some (Py.Int 2012)) "W" Hu) as (_ & Hprint & _).
  apply Hprint. split; [by vm_compute|]. split; [by vm_compute|].
  apply (bool_decide_unpack _). by vm_compute.
Defined.

(** C7 as stated fails for a year without profiles: the steps before the
    unit test raise, and the message about the units is not printed. *)
Lemma getMetaProfiles_unsupported_units_raises :
  ("W" ∉ ["V"; "A"; "kVA"; "Hz"; "kW"])
  ∧ getMetaProfiles Example.database (Some (Py.Int 1999)) (Some "W")
    = Py.Raised Py.ValueError
  ∧ getMetaProfiles Example.database (Some (Py.Int 1999)) (Some "W")
    ≠ Py.Printed unit_error.
Proof.
  split; [by apply (bool_decide_unpack _)|]. split; by vm_compute.
Qed.


(** How the unit codes are resolved.  The descriptions are attached to the
    codes in use by position, so for a year with a profile they are the
    descriptions of the lookup table when its rows for these codes come once
    each, in ascending order of [UnitsID], with distinct descriptions. *)
Lemma resolve_names_ascending (db : DB) (year : option Py.value) :
  metaprofiles db year ≠ [] →
  Units.UnitsID <$> unit_rows db year = unit_codes db year →
  NoDup (Units.Description <$> unit_rows db year) →
  ∃ names, resolve_names db year = Some names
    ∧ ∀ u, u ∈ unit_rows db year →
           names !! Units.UnitsID u = Some (Units.Description u)
           ∧ lookup_label db (Units.UnitsID u) = Some (Units.Description u).
Proof.
  intros Hne Hcodes Hdistinct.
  destruct (rename_categories_rows _ _ Hcodes (NoDup_unit_codes _ _)
              Hdistinct) as (names & Hnames & Hrows).
  exists names. split.
  - unfold resolve_names. by destruct (metaprofiles db year).
  - intros u Hu. split; [by apply Hrows|].
    by apply (lookup_label_unit_rows db year).
Qed.

(** ** The batch assembler *)

(** The loop keeps the table of the last month whose fetch succeeded. *)
Lemma foldl_month_step (db : DB) mp plist (months : list Z) df :
  foldl (month_step db mp plist) df months
  = match last (omap (db_month_query db plist) months) with
    | Some profiles => Some (join_meta profiles mp)
    | None => df
    end.
Proof.
  revert df. induction months as [|i months IH]; intros df; [done|].
  cbn [foldl]. rewrite IH. unfold month_step. cbn [omap list_omap].
  destruct (db_month_query db plist i) as [profiles|]; [|done].
  rewrite last_cons.
  by destruct (last (omap (db_month_query db plist) months)).
Qed.

(** [getProfiles] does not abort on a failed month: it returns as soon as the
    metadata resolves and one of the months 1 to 11 can be fetched. *)
Lemma getProfiles_survives_failed_months (db : DB) year month units mp
    (i : Z) profiles :
  resolve_meta db year = Some mp →
  1 ≤ i < 12 →
  db_month_query db (Meta.ProfileId <$> mp) i = Some profiles →
  ∃ df, getProfiles db year month units = Py.Returned df.
Proof.
  intros Hmp Hi Hq. unfold getProfiles, getMetaProfiles. rewrite Hmp.
  rewrite foldl_month_step.
  destruct (last _) as [p|] eqn:Hlast; [eauto|].
  apply last_None in Hlast.
  assert (profiles ∈ omap (db_month_query db (Meta.ProfileId <$> mp))
            (range 1 12)) as Hin.
  { apply list_elem_of_omap. exists i. split; [|done].
    unfold range. apply elem_of_seqZ. lia. }
  rewrite Hlast in Hin. by apply elem_of_nil in Hin.
Qed.

(** C10: the table returned by [getProfiles(year, month, units)] does not
    depend on [month] or [units]: the metadata is fetched with
    [units = None] and [month] is never read, so the outcome is the one
    computed from the year's full metadata and the monthly fetches for all
    of its profiles. *)
Theorem getProfiles_ignores_month_and_units (db : DB)
    (year : option Py.value) (month month' : option Z)
    (units units' : option string) :
  getProfiles db year month units = getProfiles db year month' units'
  ∧ getProfiles db year month units
    = match resolve_meta db year with
      | None => Py.Raised Py.ValueError
      | Some mp =>
          match last (omap (db_month_query db (Meta.ProfileId <$> mp))
                        (range 1 12)) with
          | Some profiles => Py.Returned (join_meta profiles mp)
          | None => Py.Raised Py.UnboundLocalError
          end
      end.
Proof.
  split; [done|].
  unfold getProfiles, getMetaProfiles.
  destruct (resolve_meta db year) as [mp|]; [|done].
  rewrite foldl_month_step.
  by destruct (last _).
Qed.

(** Asked for kW, [getProfiles] still returns the readings of profile 101,
    whose unit is "A avg". *)
Example getProfiles_units_not_applied :
  (λ r, (Load.ProfileID r, Load.UoM r))
    <$> default [] (match getProfiles Example.database (Some (Py.Int 2012))
                            (Some 3) (Some "kW") with
                    | Py.Returned df => Some df
                    | _ => None
                    end)
  = [(101, Some "A avg"); (102, Some "kW avg")].
Proof. by vm_compute. Qed.

(** C1: on a database where the fetch of every month succeeds,
    [getProfiles(2012)] returns the rows of month 11 alone: the rows of
    months 1 to 10 and of month 12 are not in the result. *)
Theorem getProfiles_returns_month_11_only :
  ∃ df, getProfiles Example.database (Some (Py.Int 2012)) None None
        = Py.Returned df
        ∧ Load.Datefield <$> df = [11; 11]
        ∧ db_month_query Example.database [101; 102] 1
          = Some [Profile.mkRow 101 1 (Some 0) "Y";
                  Profile.mkRow 102 1 (Some 0) "Y"]
        ∧ db_month_query Example.database [101; 102] 12
          = Some [Profile.mkRow 101 12 (Some 0) "Y";
                  Profile.mkRow 102 12 (Some 0) "Y"].
Proof. eexists. by vm_compute. Qed.

(** C2: on a database where only the fetch of month 5 fails,
    [getProfiles(2012)] returns, but with the rows of month 11 alone: the
    rows of the other months that were fetched are not in the result. *)
Theorem getProfiles_failed_month_keeps_month_11_only :
  db_month_query Example.database_may_down [101; 102] 5 = None
  ∧ (∀ i, 1 ≤ i ≤ 12 → i ≠ 5 →
          db_month_query Example.database_may_down [101; 102] i
          = Some (Example.readings [101; 102] i))
  ∧ ∃ df, getProfiles Example.database_may_down (Some (Py.Int 2012)) None None
          = Py.Returned df
          ∧ Load.Datefield <$> df = [11; 11].
Proof.
  split; [done|]. split.
  - intros i _ Hi. simpl. by rewrite decide_False.
  - eexists. by vm_compute.
Qed.

(** ** The anonymization pass *)

(** The decimal text of a number is not a word. *)
Lemma pretty_N_go_not_A (x : N) (s s' : string) :
  s ≠ String "A" s' → pretty_N_go x s ≠ String "A" s'.
Proof.
  revert s. induction (N.lt_wf_0 x) as [x _ IH]; intros s Hs.
  destruct (decide (x = 0)%N) as [->|Hx].
  - by rewrite pretty_N_go_0.
  - rewrite pretty_N_go_step by lia.
    apply IH; [apply N.div_lt; lia|].
    unfold pretty_N_char. by repeat case_match.
Qed.

Lemma pretty_Z_not_AnswerID (c : Z) : pretty c ≠ "AnswerID".
Proof.
  destruct c as [|p|p]; [done| |done].
  unfold pretty, pretty_Z, pretty, pretty_positive, pretty, pretty_N.
  rewrite decide_False by done. by apply pretty_N_go_not_A.
Qed.

Lemma has_answer_same x (r r' : gmap string cell) :
  r !! "AnswerID" = r' !! "AnswerID" → has_answer x r ↔ has_answer x r'.
Proof. unfold has_answer. by intros ->. Qed.

Lemma same_answers_refl a : same_answers a a.
Proof. by apply Forall_Forall2_diag, Forall_true. Qed.

(** The first row of an answer is found at the same place in every frame
    with the same [AnswerID] column. *)
Lemma list_find_same_answers x (a a' : frame) i r :
  same_answers a a' →
  list_find (has_answer x) a = Some (i, r) →
  ∃ r', list_find (has_answer x) a' = Some (i, r').
Proof.
  intros Hs (Hi & HP & Hlt)%list_find_Some.
  destruct (Forall2_lookup_l _ _ _ _ _ Hs Hi) as (r' & Hi' & Heq).
  exists r'. apply list_find_Some. split_and!; [done|by apply (has_answer_same x r r')|].
  intros j y Hj Hji Hy.
  destruct (Forall2_lookup_r _ _ _ _ _ Hs Hj) as (y0 & Hj0 & Heq0).
  apply (Hlt j y0 Hj0 Hji). by apply (has_answer_same x y0 y).
Qed.

Lemma set_anon_spec (a0 a : frame) x c i r0 :
  same_answers a0 a →
  list_find (has_answer x) a0 = Some (i, r0) →
  ∃ a1, set_anon a (x, c) = Some a1
    ∧ same_answers a0 a1
    ∧ keeps_sentinels a a1
    ∧ ∃ r1 : gmap string cell,
        a1 !! i = Some r1 ∧ r1 !! pretty c = Some (CStr "a").
Proof.
  intros Hs Hfind.
  destruct (list_find_same_answers x a0 a i r0 Hs Hfind) as (r & Hr).
  unfold set_anon. simpl. rewrite Hr. eexists. split; [done|].
  apply list_find_Some in Hr as (Hi & _ & _).
  split_and!.
  - apply Forall2_alter_r; [done|]. intros y z _ _ ->.
    rewrite lookup_insert_ne; [done|]. apply pretty_Z_not_AnswerID.
  - intros j r' col Hj Hcol. destruct (decide (i = j)) as [->|Hne].
    + rewrite list_lookup_alter_eq, Hj. simpl. eexists. split; [done|].
      destruct (decide (pretty c = col)) as [->|?].
      * by rewrite lookup_insert_eq.
      * by rewrite lookup_insert_ne.
    + rewrite list_lookup_alter_ne by done. eauto.
  - rewrite list_lookup_alter_eq, Hi. simpl. eexists. split; [done|].
    by rewrite lookup_insert_eq.
Qed.

Lemma keeps_sentinels_trans a b c :
  keeps_sentinels a b → keeps_sentinels b c → keeps_sentinels a c.
Proof.
  intros Hab Hbc j r col Hj Hcol.
  destruct (Hab j r col Hj Hcol) as (r' & ? & ?). eauto.
Qed.

(** The loop of lines 314-315, started on [a] after [a0] was read. *)
Lemma anonymise_fold (a0 a : frame) (rules : list (Z * Z)) :
  same_answers a0 a →
  (∀ x c, (x, c) ∈ rules → ∃ row, row ∈ a0 ∧ has_answer x row) →
  ∃ out, anonymise a rules = Some out
    ∧ same_answers a0 out
    ∧ keeps_sentinels a out
    ∧ ∀ x c i row, (x, c) ∈ rules →
        list_find (has_answer x) a0 = Some (i, row) →
        ∃ row' : gmap string cell,
          out !! i = Some row' ∧ row' !! pretty c = Some (CStr "a").
Proof.
  revert a. induction rules as [|[x c] rules IH]; intros a Hs Hpresent.
  - exists a. split_and!; [done|done| |].
    + intros j r col ??. eauto.
    + intros x c i row Hin. by apply elem_of_nil in Hin.
  - destruct (Hpresent x c ltac:(left)) as (row & Hrow & Hx).
    destruct (list_find_elem_of (has_answer x) a0 row Hrow Hx)
      as [[i r0] Hfind].
    destruct (set_anon_spec a0 a x c i r0 Hs Hfind)
      as (a1 & Hset & Hs1 & Hkeep1 & r1 & Hi1 & Hc1).
    destruct (IH a1 Hs1) as (out & Hout & Hso & Hkeep & Hmask).
    { intros x' c' Hin. apply (Hpresent x' c'). by right. }
    exists out. split_and!.
    + unfold anonymise in *. cbn [foldl]. simpl. by rewrite Hset.
    + done.
    + by apply (keeps_sentinels_trans a a1 out).
    + intros x' c' i' row' [[= -> ->]|Hin]%elem_of_cons Hfind'.
      * rewrite Hfind in Hfind'. injection Hfind' as <- <-.
        apply (Hkeep i r1 (pretty c) Hi1 Hc1).
      * by apply (Hmask x' c' i' row').
Qed.

Lemma elem_of_qanon (w : World) (v : string) rules x c :
  anonymise_dir w !! v = Some rules →
  (x, c) ∈ qanon (db w) rules ↔ marked w v x c.
Proof.
  intros Hv. unfold qanon, marked.
  rewrite list_elem_of_fmap. setoid_rewrite elem_of_merge_inner.
  split.
  - intros ([ans rule] & Hxc & Hans & Hr & Hq).
    apply list_elem_of_filter in Hr as [Han Hr].
    simpl in *. injection Hxc as -> ->.
    exists rules, ans, rule. eauto 10.
  - intros (rules' & ans & rule & Hv' & Hr & Han & Hans & Hq & -> & ->).
    rewrite Hv in Hv'. injection Hv' as <-.
    exists (ans, rule). simpl. split_and!; [done..| |done].
    by apply list_elem_of_filter.
Qed.

Lemma has_answer_fillna x (r : gmap string cell) :
  has_answer x (fillna <$> r) ↔ has_answer x r.
Proof.
  unfold has_answer. rewrite lookup_fmap.
  destruct (r !! "AnswerID") as [[]|]; simpl; split; congruence.
Qed.

Lemma anon_table_spec (w : World) (k v : string) (a : frame) rules :
  getData_answers (db w) k = Some a →
  anonymise_dir w !! v = Some rules →
  (∀ x c, marked w v x c → ∃ row, row ∈ a ∧ has_answer x row) →
  ∃ out,
    anon_table w (k, v)
    = ({| db := db w; anonymise_dir := anonymise_dir w;
          tables_dir := <[anon_path k := out]> (tables_dir w) |},
       Py.Returned ())
    ∧ first_rows_masked w v a out.
Proof.
  intros Ha Hv Hpresent.
  destruct (anonymise_fold a a (qanon (db w) rules) (same_answers_refl a))
    as (a' & Hrun & Hsame & _ & Hmask).
  { intros x c Hin. apply (Hpresent x c). by apply (elem_of_qanon w v rules). }
  exists (fillna_frame a'). split.
  - unfold anon_table. simpl. by rewrite Ha, Hv, Hrun.
  - split.
    + apply Forall2_fmap_r. eapply Forall2_impl; [exact Hsame|].
      intros r r' Heq x. simpl. rewrite has_answer_fillna.
      by apply has_answer_same.
    + intros x c i row Hm Hfind.
      destruct (Hmask x c i row) as (row' & Hi & Hc);
        [by apply (elem_of_qanon w v rules)|done|].
      exists (fillna <$> row'). split_and!.
      * unfold fillna_frame. by rewrite list_lookup_fmap, Hi.
      * apply has_answer_fillna.
        apply list_find_Some in Hfind as (Hrow & Hx & _).
        destruct (Forall2_lookup_l _ _ _ _ _ Hsame Hrow) as (r2 & Hr2 & Heq).
        rewrite Hi in Hr2. injection Hr2 as <-.
        by apply (has_answer_same x row row').
      * by rewrite lookup_fmap, Hc.
Qed.

(** The whole pass: both answer tables are masked and written, each to its
    own new file; the database and the rule files are as before. *)
Lemma anonAns_spec (w : World) :
  rule_files_present w → answers_present w →
  ∃ out_blob out_char,
    anonAns w
    = ({| db := db w; anonymise_dir := anonymise_dir w;
          tables_dir :=
            <[anon_path "Answers_char" := out_char]>
              (<[anon_path "Answers_blob" := out_blob]> (tables_dir w)) |},
       Py.Returned ())
    ∧ first_rows_masked w "blobQs.csv" (db_Answers_blob (db w)) out_blob
    ∧ first_rows_masked w "charQs.csv" (db_Answers_char (db w)) out_char.
Proof.
  intros Hfiles Hpresent.
  destruct (Hfiles "Answers_blob" "blobQs.csv") as [rules_b Hb]; [left|].
  destruct (Hfiles "Answers_char" "charQs.csv") as [rules_c Hc];
    [right; left|].
  destruct (anon_table_spec w "Answers_blob" "blobQs.csv"
              (db_Answers_blob (db w)) rules_b) as (out_b & Hrun_b & Hmb);
    [done|done| |].
  { apply (Hpresent "Answers_blob" "blobQs.csv"); [left|done]. }
  set (w1 := {| db := db w; anonymise_dir := anonymise_dir w;
                tables_dir := <[anon_path "Answers_blob" := out_b]>
                                (tables_dir w) |}) in *.
  destruct (anon_table_spec w1 "Answers_char" "charQs.csv"
              (db_Answers_char (db w)) rules_c) as (out_c & Hrun_c & Hmc);
    [done|done| |].
  { apply (Hpresent "Answers_char" "charQs.csv"); [right; left|done]. }
  exists out_b, out_c. split_and!; [|done|done].
  unfold anonAns, anstables. cbn [foldl]. cbn [snd fst].
  rewrite Hrun_b. cbn [snd fst]. by rewrite Hrun_c.
Qed.

(** When [AnswerID] is a key of the answer table, the first row of an answer
    is its only row, so every row of a linked answer is masked. *)
Lemma first_rows_masked_key (w : World) (v : string) (a out : frame) :
  answer_key a → first_rows_masked w v a out →
  ∀ x c (row' : gmap string cell), marked w v x c →
    (∃ row, row ∈ a ∧ has_answer x row) →
    row' ∈ out → has_answer x row' → row' !! pretty c = Some (CStr "a").
Proof.
  intros Hkey [Hsame Hmask] x c row' Hm (row & Hrow & Hx) Hin' Hx'.
  destruct (list_find_elem_of (has_answer x) a row Hrow Hx) as [[i r] Hfind].
  destruct (Hmask x c i r Hm Hfind) as (r' & Hi' & _ & Hc).
  apply list_elem_of_lookup in Hin' as [j Hj].
  destruct (Forall2_lookup_r _ _ _ _ _ Hsame Hj) as (r0 & Hr0 & Hiff).
  apply list_find_Some in Hfind as (Hi & Hxi & _).
  assert (i = j) as <- by (apply (Hkey x i j r r0); [done..|by apply Hiff]).
  rewrite Hj in Hi'. by injection Hi' as <-.
Qed.

Lemma example_blob_rows (x : Z) :
  x ∈ [1; 2; 3] → ∃ row, row ∈ Example.blob ∧ has_answer x row.
Proof.
  intros Hx. unfold Example.blob.
  repeat (apply elem_of_cons in Hx as [->|Hx]);
    [..|by apply elem_of_nil in Hx].
  - exists (Example.answer_row 1 "Jo Soap"). split; [left|by vm_compute].
  - exists (Example.answer_row 2 "12 Long St").
    split; [right; left|by vm_compute].
  - exists (Example.answer_row 3 "n/a").
    split; [right; right; left|by vm_compute].
Qed.

Lemma example_answers_present (blob_table : frame) query :
  (∀ x, x ∈ [1; 2; 3] → ∃ row, row ∈ blob_table ∧ has_answer x row) →
  answers_present
    {| db := Example.base query blob_table;
       anonymise_dir := Example.rule_files; tables_dir := ∅ |}.
Proof.
  intros Hblob k v a Hkv Ha x c
    (rules & ans & rule & _ & _ & _ & Hans & _ & -> & _).
  assert (Answers.AnswerID ans ∈ [1; 2; 3]) as Hx.
  { simpl in Hans. unfold Example.answers in Hans.
    repeat (apply elem_of_cons in Hans as [->|Hans]);
      [..|by apply elem_of_nil in Hans]; simpl;
      by apply (bool_decide_unpack _). }
  unfold anstables in Hkv.
  repeat (apply elem_of_cons in Hkv as [[= -> ->]|Hkv]);
    [..|by apply elem_of_nil in Hkv]; injection Ha as <-.
  - by apply Hblob.
  - by apply example_blob_rows.
Qed.

(** What a turn of the loop over [anstables] does depends on the database
    and the rule files alone: it raises, or it writes one frame to the file
    of the table. *)
Lemma anon_table_result (w : World) (k v : string) :
  ∃ res : Py.exn + frame,
    ∀ w', db w' = db w → anonymise_dir w' = anonymise_dir w →
      anon_table w' (k, v)
      = match res with
        | inl e => (w', Py.Raised e)
        | inr out =>
            ({| db := db w'; anonymise_dir := anonymise_dir w';
                tables_dir := <[anon_path k := out]> (tables_dir w') |},
             Py.Returned ())
        end.
Proof.
  destruct (getData_answers (db w) k) as [a|] eqn:Ha.
  - destruct (anonymise_dir w !! v) as [rules|] eqn:Hv.
    + destruct (anonymise a (qanon (db w) rules)) as [a'|] eqn:Hrun.
      * exists (inr (fillna_frame a')). intros w' Hdb Hdir.
        unfold anon_table. cbn [fst snd]. by rewrite Hdb, Hdir, Ha, Hv, Hrun.
      * exists (inl Py.IndexError). intros w' Hdb Hdir.
        unfold anon_table. cbn [fst snd]. by rewrite Hdb, Hdir, Ha, Hv, Hrun.
    + exists (inl Py.FileNotFoundError). intros w' Hdb Hdir.
      unfold anon_table. cbn [fst snd]. by rewrite Hdb, Hdir, Ha, Hv.
  - exists (inl Py.DatabaseError). intros w' Hdb Hdir.
    unfold anon_table. cbn [fst snd]. by rewrite Hdb, Hdir, Ha.
Qed.

Lemma anonAns_unfold (w : World) :
  anonAns w
  = match (anon_table w ("Answers_blob", "blobQs.csv")).2 with
    | Py.Returned _ =>
        anon_table (anon_table w ("Answers_blob", "blobQs.csv")).1
          ("Answers_char", "charQs.csv")
    | _ => anon_table w ("Answers_blob", "blobQs.csv")
    end.
Proof. done. Qed.

(** *** A linked answer without a row *)

Lemma anonymise_raised rules :
  foldl (λ acc rule, a' ← acc; set_anon a' rule) None rules = None.
Proof. by induction rules. Qed.

Lemma same_answers_trans a b c :
  same_answers a b → same_answers b c → same_answers a c.
Proof. apply Forall2_trans. congruence. Qed.

Lemma set_anon_same_answers (a a1 : frame) (rule : Z * Z) :
  set_anon a rule = Some a1 → same_answers a a1.
Proof.
  unfold set_anon. destruct (list_find _ a) as [[i r]|]; [|done].
  intros [= <-]. apply Forall2_alter_r; [apply same_answers_refl|].
  intros y z _ _ ->. rewrite lookup_insert_ne; [done|].
  apply pretty_Z_not_AnswerID.
Qed.

Lemma list_find_missing x (a0 a : frame) :
  same_answers a0 a →
  (∀ row, row ∈ a0 → ¬ has_answer x row) →
  list_find (has_answer x) a = None.
Proof.
  intros Hs Hno. apply list_find_None, Forall_lookup. intros j r' Hj Hx.
  destruct (Forall2_lookup_r _ _ _ _ _ Hs Hj) as (r & Hr & Heq).
  apply (Hno r); [by apply list_elem_of_lookup_2 in Hr|].
  by apply (has_answer_same x r r').
Qed.

(** The loop of lines 314-315 raises as soon as one of its rules names an
    answer without a row, wherever the rule stands in the list. *)
Lemma anonymise_missing (a0 a : frame) (rules : list (Z * Z)) x c :
  same_answers a0 a →
  (x, c) ∈ rules →
  (∀ row, row ∈ a0 → ¬ has_answer x row) →
  anonymise a rules = None.
Proof.
  revert a. induction rules as [|rule rules IH]; intros a Hs Hin Hno;
    [by apply elem_of_nil in Hin|].
  unfold anonymise. cbn [foldl]. simpl.
  destruct (set_anon a rule) as [a1|] eqn:Hset; [|apply anonymise_raised].
  apply elem_of_cons in Hin as [<-|Hin].
  - unfold set_anon in Hset. simpl in Hset.
    by rewrite (list_find_missing x a0 a Hs Hno) in Hset.
  - apply (IH a1); [|done|done].
    apply (same_answers_trans a0 a a1 Hs).
    by apply (set_anon_same_answers a a1 rule).
Qed.

Lemma anon_table_missing (w : World) (k v : string) (a : frame) x c :
  getData_answers (db w) k = Some a →
  is_Some (anonymise_dir w !! v) →
  marked w v x c →
  (∀ row, row ∈ a → ¬ has_answer x row) →
  anon_table w (k, v) = (w, Py.Raised Py.IndexError).
Proof.
  intros Ha [rules Hv] Hm Hno. unfold anon_table. cbn [fst snd].
  rewrite Ha, Hv.
  rewrite (anonymise_missing a a _ x c (same_answers_refl a)); [done| |done].
  by apply (elem_of_qanon w v rules).
Qed.

Lemma example_blob_key : answer_key Example.blob.
Proof.
  intros x i j r r' Hi Hj Hx Hx'. unfold has_answer in *.
  destruct i as [|[|[|i]]]; [| | |done];
    destruct j as [|[|[|j]]]; try done;
    injection Hi as <-; injection Hj as <-;
    vm_compute in Hx; vm_compute in Hx'; congruence.
Qed.

(** C5 (amended): with the rule files in place and [AnswerID] a key of the
    two answer tables, [anonAns] leaves the database and the rule files as
    they are and writes nothing but the two files [<table>_anon].  When
    every linked answer of a marked questionnaire has a row in the answer
    table, it returns, and each table is persisted under the new name,
    which differs from the source table's, with the rows of the same
    answers and the sentinel "a" in every marked column of every row of a
    linked answer.  When a linked answer has no row in a table, the lookup
    of line 315 raises [IndexError] and nothing is persisted for that
    table. *)
Theorem anonAns_masks_linked_rows (w : World) :
  rule_files_present w →
  answer_key (db_Answers_blob (db w)) →
  answer_key (db_Answers_char (db w)) →
  (db (anonAns w).1 = db w
   ∧ anonymise_dir (anonAns w).1 = anonymise_dir w
   ∧ ∀ p, p ≠ anon_path "Answers_blob" → p ≠ anon_path "Answers_char" →
          tables_dir (anonAns w).1 !! p = tables_dir w !! p)
  ∧ (answers_present w →
     (anonAns w).2 = Py.Returned ()
     ∧ ∀ k v a, (k, v) ∈ anstables → getData_answers (db w) k = Some a →
         Py.lower k +:+ "_anon" ≠ k
         ∧ ∃ out, tables_dir (anonAns w).1 !! anon_path k = Some out
             ∧ Forall2 (λ r r', ∀ x, has_answer x r ↔ has_answer x r') a out
             ∧ ∀ x c row, marked w v x c → row ∈ out → has_answer x row →
                 row !! pretty c = Some (CStr "a"))
  ∧ (∀ k v a x c, (k, v) ∈ anstables → getData_answers (db w) k = Some a →
       marked w v x c →
       (∀ row, row ∈ a → ¬ has_answer x row) →
       (anonAns w).2 = Py.Raised Py.IndexError
       ∧ tables_dir (anonAns w).1 !! anon_path k
         = tables_dir w !! anon_path k).
Proof.
  intros Hfiles Hkb Hkc. split; [|split].
  - rewrite anonAns_unfold.
    destruct (anon_table_result w "Answers_blob" "blobQs.csv") as [rb Hb].
    destruct (anon_table_result w "Answers_char" "charQs.csv") as [rc Hc].
    rewrite (Hb w) by done. destruct rb as [e|ob]; [done|]. cbn [snd fst].
    rewrite Hc by done. destruct rc as [e|oc];
      cbn [fst snd db anonymise_dir tables_dir].
    + split_and!; [done..|]. intros p Hpb _. by rewrite lookup_insert_ne.
    + split_and!; [done..|]. intros p Hpb Hpc. by rewrite !lookup_insert_ne.
  - intros Hpresent.
    destruct (anonAns_spec w Hfiles Hpresent)
      as (ob & oc & -> & Hmb & Hmc).
    cbn [fst snd tables_dir]. split; [done|].
    intros k v a Hkv Ha. unfold anstables in Hkv.
    repeat (apply elem_of_cons in Hkv as [[= -> ->]|Hkv]);
      [..|by apply elem_of_nil in Hkv]; injection Ha as <-;
      (split; [done|]).
    + exists ob. split.
      { rewrite lookup_insert_ne by done. by rewrite lookup_insert_eq. }
      split; [apply Hmb|]. intros x c row Hm Hrow Hx.
      apply (first_rows_masked_key w "blobQs.csv" _ ob Hkb Hmb x c row);
        [done| |done|done].
      by apply (Hpresent "Answers_blob" "blobQs.csv" _ ltac:(left) eq_refl
                  x c).
    + exists oc. split; [by rewrite lookup_insert_eq|].
      split; [apply Hmc|]. intros x c row Hm Hrow Hx.
      apply (first_rows_masked_key w "charQs.csv" _ oc Hkc Hmc x c row);
        [done| |done|done].
      by apply (Hpresent "Answers_char" "charQs.csv" _
                  ltac:(right; left) eq_refl x c).
  - intros k v a x c Hkv Ha Hm Hno. rewrite anonAns_unfold.
    unfold anstables in Hkv.
    repeat (apply elem_of_cons in Hkv as [[= -> ->]|Hkv]);
      [..|by apply elem_of_nil in Hkv].
    + rewrite (anon_table_missing w _ _ a x c Ha); [done| |done|done].
      apply (Hfiles "Answers_blob"). left.
    + assert (is_Some (anonymise_dir w !! "charQs.csv")) as Hv
        by (apply (Hfiles "Answers_char"); right; left).
      destruct (anon_table_result w "Answers_blob" "blobQs.csv") as [rb Hb].
      rewrite (Hb w) by done. destruct rb as [e|ob]; cbn [fst snd].
      * destruct (Hfiles "Answers_blob" "blobQs.csv" ltac:(left))
          as [rules Hrules].
        specialize (Hb w eq_refl eq_refl). unfold anon_table in Hb.
        cbn [fst snd] in Hb. rewrite Hrules in Hb. simpl in Hb.
        destruct (anonymise _ _); by injection Hb as <-.
      * rewrite (anon_table_missing _ _ _ a x c); [|done|done|done|done].
        cbn [fst snd tables_dir]. split; [done|].
        by rewrite lookup_insert_ne.
Qed.

Lemma anonAns_masks_linked_rows_witness :
  rule_files_present Example.world
  ∧ answer_key (db_Answers_blob (db Example.world))
  ∧ answer_key (db_Answers_char (db Example.world))
  ∧ answers_present Example.world
  ∧ (anonAns Example.world).2 = Py.Returned ()
  ∧ db (anonAns Example.world).1 = db Example.world.
Proof.
  assert (rule_files_present Example.world) as Hfiles.
  { intros k v Hkv. unfold anstables in Hkv.
    repeat (apply elem_of_cons in Hkv as [[= -> ->]|Hkv]);
      [..|by apply elem_of_nil in Hkv]; by eexists. }
  assert (answers_present Example.world) as Hpresent.
  { apply example_answers_present, example_blob_rows. }
  split; [exact Hfiles|]. split; [exact example_blob_key|].
  split; [exact example_blob_key|]. split; [exact Hpresent|].
  destruct (anonAns_masks_linked_rows Example.world Hfiles example_blob_key
              example_blob_key) as ((Hdb & _) & Hmask & _).
  destruct (Hmask Hpresent) as [Hret _].
  by split.
Defined.

Example anonAns_example :
  tables_dir (anonAns Example.world).1 !! anon_path "Answers_blob"
  = Some [ <["5" := CStr "a"]> (Example.answer_row 1 "Jo Soap");
           <["5" := CStr "a"]> (Example.answer_row 2 "12 Long St");
           Example.answer_row 3 "n/a" ].
Proof. by vm_compute. Qed.

(** C5 as stated fails where a linked answer has no row in the answer
    table: answer 2, linked to the marked questionnaire 10, is missing from
    [Answers_blob], whose [AnswerID] is a key.  The pass raises and persists
    nothing. *)
Lemma anonAns_missing_answer_persists_nothing :
  answer_key (db_Answers_blob (db Example.world_missing_answer))
  ∧ marked Example.world_missing_answer "blobQs.csv" 2 5
  ∧ anonAns Example.world_missing_answer
    = (Example.world_missing_answer, Py.Raised Py.IndexError)
  ∧ ¬ masks_every_marked_cell Example.world_missing_answer.
Proof.
  split_and!.
  - intros x i j r r' Hi Hj Hx Hx'. unfold has_answer in *.
    destruct i as [|[|i]]; [| |done];
      destruct j as [|[|j]]; try done;
      injection Hi as <-; injection Hj as <-;
      vm_compute in Hx; vm_compute in Hx'; congruence.
  - exists [Rule.mkRow 10 5 1; Rule.mkRow 11 5 0], (Answers.mkRow 2 10),
      (Rule.mkRow 10 5 1).
    split_and!; [by vm_compute|left|done|right; left|done..].
  - by vm_compute.
  - intros Hmask.
    destruct (Hmask "Answers_blob" "blobQs.csv" ltac:(left))
      as (out & Hout & _).
    by vm_compute in Hout.
Qed.

(** Outside the data model, where an answer has two rows, line 315 reaches
    the first of them only. *)
Example anonAns_repeated_answer :
  tables_dir (anonAns Example.world_repeated_answer).1
    !! anon_path "Answers_blob"
  = Some [ <["5" := CStr "a"]> (Example.answer_row 1 "Jo Soap");
           Example.answer_row 1 "Jo Soap";
           <["5" := CStr "a"]> (Example.answer_row 2 "12 Long St");
           Example.answer_row 3 "n/a" ].
Proof. by vm_compute. Qed.

(** * Further properties of the module *)

(** ** Order of the flattened group table *)

Lemma label_compare_eq a b : label_compare a b = Eq → a = b.
Proof.
  destruct a as [x|], b as [y|]; simpl; try done.
  by intros ->%Z.compare_eq.
Qed.

Lemma label_compare_refl a : label_compare a a = Eq.
Proof. destruct a; simpl; [apply Z.compare_refl|done]. Qed.

Lemma label_compare_lt_trans a b c :
  label_compare a b = Lt → label_compare b c = Lt → label_compare a c = Lt.
Proof.
  destruct a as [x|], b as [y|], c as [z|]; simpl; try done.
  rewrite !Z.compare_lt_iff. lia.
Qed.

Lemma label_compare_antisym a b :
  label_compare b a = CompOpp (label_compare a b).
Proof.
  destruct a as [x|], b as [y|]; simpl; try done. apply Z.compare_antisym.
Qed.

(** How two comparisons compose when neither is [Gt]. *)
Lemma label_compare_chain a b c :
  label_compare a b ≠ Gt → label_compare b c ≠ Gt →
  label_compare a c
  = match label_compare a b with Eq => label_compare b c | _ => Lt end.
Proof.
  intros Hab Hbc.
  destruct (label_compare a b) eqn:Eab; [| |done].
  - by apply label_compare_eq in Eab as ->.
  - destruct (label_compare b c) eqn:Ebc; [| |done].
    + by apply label_compare_eq in Ebc as <-.
    + by apply (label_compare_lt_trans a b c).
Qed.

Lemma index_leb_trans a b c :
  index_leb a b = true → index_leb b c = true → index_leb a c = true.
Proof.
  destruct a as [[a1 a2] a3], b as [[b1 b2] b3], c as [[c1 c2] c3].
  unfold index_leb. intros Hab Hbc.
  rewrite (label_compare_chain a1 b1 c1)
    by (intros E; rewrite E in *; discriminate).
  destruct (label_compare a1 b1); [|done|done].
  destruct (label_compare b1 c1); [|done|done].
  rewrite (label_compare_chain a2 b2 c2)
    by (intros E; rewrite E in *; discriminate).
  destruct (label_compare a2 b2); [|done|done].
  destruct (label_compare b2 c2); [|done|done].
  rewrite (label_compare_chain a3 b3 c3)
    by (intros E; rewrite E in *; discriminate).
  destruct (label_compare a3 b3); [|done|done].
  by destruct (label_compare b3 c3).
Qed.

Lemma index_leb_total a b : index_leb a b = false → index_leb b a = true.
Proof.
  destruct a as [[a1 a2] a3], b as [[b1 b2] b3]. unfold index_leb.
  rewrite (label_compare_antisym a1 b1), (label_compare_antisym a2 b2),
    (label_compare_antisym a3 b3).
  by destruct (label_compare a1 b1), (label_compare a2 b2),
    (label_compare a3 b3).
Qed.

Lemma insert_row_sorted r t :
  StronglySorted index_le t → StronglySorted index_le (insert_row r t).
Proof.
  induction 1 as [|r' t Hsorted IH Hle]; cbn [insert_row].
  - repeat constructor.
  - destruct (index_leb (flat_index r) (flat_index r')) eqn:E.
    + constructor; [by constructor|]. constructor; [done|].
      eapply Forall_impl; [exact Hle|]. intros r'' Hr''.
      by apply (index_leb_trans _ (flat_index r')).
    + constructor; [done|]. rewrite insert_row_perm.
      constructor; [|done]. by apply index_leb_total.
Qed.

Lemma sort_index_sorted t : StronglySorted index_le (sort_index t).
Proof.
  induction t as [|r t IH]; simpl; [constructor|].
  by apply insert_row_sorted.
Qed.

Lemma StronglySorted_filter {A} (R : relation A) (P : A → Prop)
    `{!∀ x, Decision (P x)} (l : list A) :
  StronglySorted R l → StronglySorted R (filter P l).
Proof.
  induction 1 as [|x l Hsorted IH Hx]; [constructor|].
  rewrite filter_cons. case_decide; [|done].
  constructor; [done|]. apply Forall_forall.
  intros y [_ Hy]%list_elem_of_filter.
  rewrite Forall_forall in Hx. by apply Hx.
Qed.

(** The table [getGroups] returns, with or without a year, is in ascending
    order of its index [(GroupID_1, GroupID_2, GroupID_3)]: every row comes
    before all rows after it. *)
Theorem getGroups_sorted (db : DB) (year : option Py.value) :
  StronglySorted index_le (getGroups db year).
Proof.
  unfold getGroups. destruct year as [y|].
  - apply StronglySorted_filter, sort_index_sorted.
  - apply sort_index_sorted.
Qed.

(** ** What the left joins keep *)

Section merge_left_elements.
Context {L R : Type}.
Variables (left_on : L → option Z) (right_on : R → Z).

Lemma elem_of_merge_left (x : L * option R) ls rs :
  x ∈ merge_left left_on right_on ls rs →
  x.1 ∈ ls ∧ ∀ r, x.2 = Some r → r ∈ rs.
Proof.
  induction ls as [|l ls IH]; [by intros ?%elem_of_nil|].
  rewrite merge_left_cons, elem_of_app. intros [Hx|Hx].
  - destruct (filter _ rs) as [|m ms] eqn:Hms.
    + apply list_elem_of_singleton in Hx as ->. split; [left|done].
    + apply list_elem_of_fmap in Hx as (r & -> & Hr). split; [left|].
      intros r' [= <-].
      assert (r ∈ filter (λ r, left_on l = Some (right_on r)) rs) as Hin
        by by rewrite Hms.
      by apply list_elem_of_filter in Hin as [_ ?].
  - destruct (IH Hx) as [? ?]. split; [by right|done].
Qed.

Lemma merge_left_keeps l ls rs :
  l ∈ ls → ∃ x, x ∈ merge_left left_on right_on ls rs ∧ x.1 = l.
Proof.
  induction ls as [|l' ls IH]; [by intros ?%elem_of_nil|].
  rewrite merge_left_cons. intros [->|Hl]%elem_of_cons.
  - destruct (filter _ rs) as [|m ms].
    + exists (l', None). split; [|done]. apply elem_of_app. left. left.
    + exists (l', Some m). split; [|done]. apply elem_of_app. left. left.
  - destruct (IH Hl) as (x & Hx & <-). exists x. split; [|done].
    apply elem_of_app. by right.
Qed.
End merge_left_elements.

Lemma elem_of_slim_level (s : Groups.slim) (level groups : list Groups.row) :
  (∀ g, g ∈ level → g ∈ groups) →
  s ∈ slim <$> level →
  ∃ g, g ∈ groups ∧ Groups.sGroupName s = Groups.GroupName g.
Proof.
  intros Hsub (g & -> & Hg)%list_elem_of_fmap. exists g. split; [|done].
  by apply Hsub.
Qed.

Lemma children_of_subseteq level groups g :
  g ∈ children_of level groups → g ∈ groups.
Proof. by intros [_ ?]%list_elem_of_filter. Qed.

(** Where a row of the reconstructed table comes from: its own columns are
    those of a level-4 group, and each ancestor name present is the name of
    a group of the table. *)
Lemma elem_of_reconstruct (groups : list Groups.row) (r : Flat.row) :
  r ∈ reconstruct groups →
  (∃ g, g ∈ groups_level_4 groups ∧ leaf_columns r = group_columns g)
  ∧ ∀ n, (Flat.Dom_NonDom r = Some n ∨ Flat.Survey r = Some n
          ∨ Flat.Year r = Some n) →
         ∃ g, g ∈ groups ∧ Groups.GroupName g = n.
Proof.
  unfold reconstruct.
  intros ([[[g4 m3] m2] m1] & -> & Hz)%list_elem_of_fmap.
  apply elem_of_merge_left in Hz as [Hz H1].
  apply elem_of_merge_left in Hz as [Hz H2].
  apply elem_of_merge_left in Hz as [Hz H3].
  simpl in *. split; [by exists g4|].
  intros n [Hn|[Hn|Hn]].
  - destruct m1 as [s|]; [|done]. injection Hn as <-.
    destruct (elem_of_slim_level s (groups_level_1 groups) groups)
      as (g & ? & ->); [|by apply H1|by exists g].
    by intros g [_ ?]%list_elem_of_filter.
  - destruct m2 as [s|]; [|done]. injection Hn as <-.
    destruct (elem_of_slim_level s (groups_level_2 groups) groups)
      as (g & ? & ->); [|by apply H2|by exists g].
    apply children_of_subseteq.
  - destruct m3 as [s|]; [|done]. injection Hn as <-.
    destruct (elem_of_slim_level s (groups_level_3 groups) groups)
      as (g & ? & ->); [|by apply H3|by exists g].
    apply children_of_subseteq.
Qed.

(** On any Group table, tree or not, the left joins neither drop a group of
    level 4 nor add a row for another group: the rows of [getGroups()] carry
    exactly the identifier, name and context of the groups whose [ParentID]
    is the identifier of a level-3 group. *)
Theorem getGroups_rows_are_level_4 (db : DB) (c : Z * string * option Z) :
  c ∈ leaf_columns <$> getGroups db None
  ↔ c ∈ group_columns <$> groups_level_4 (normalise <$> db_Groups db).
Proof.
  unfold getGroups. rewrite sort_index_perm.
  set (groups := normalise <$> db_Groups db).
  rewrite !list_elem_of_fmap. split.
  - intros (r & -> & Hr).
    apply elem_of_reconstruct in Hr as [(g & Hg & ->) _]. by exists g.
  - intros (g & -> & Hg). unfold reconstruct.
    destruct (merge_left_keeps (λ g, Some (Groups.ParentID g))
                Groups.sGroupID g _ (slim <$> groups_level_3 groups) Hg)
      as (x3 & Hx3 & E3).
    destruct (merge_left_keeps (λ r, Groups.sParentID <$> r.2)
                Groups.sGroupID x3 _ (slim <$> groups_level_2 groups) Hx3)
      as (x2 & Hx2 & E2).
    destruct (merge_left_keeps (λ r, Groups.sParentID <$> r.2)
                Groups.sGroupID x2 _ (slim <$> groups_level_1 groups) Hx2)
      as (x1 & Hx1 & E1).
    exists (pretty_row x1). split.
    + rewrite leaf_columns_pretty_row. by rewrite E1, E2, E3.
    + apply list_elem_of_fmap. by exists x1.
Qed.

(** ** Group names are stripped *)

Lemma rstrip_idemp s : Py.rstrip (Py.rstrip s) = Py.rstrip s.
Proof.
  induction s as [|c s IH]; [done|]. cbn [Py.rstrip].
  destruct (Py.rstrip s) as [|d t] eqn:E.
  - destruct (Py.isspace c) eqn:Ec; [done|]. cbn [Py.rstrip]. by rewrite Ec.
  - change (Py.rstrip (String c (String d t)))
      with (match Py.rstrip (String d t) with
            | EmptyString =>
                if Py.isspace c then EmptyString else String c EmptyString
            | u => String c u
            end).
    by rewrite IH.
Qed.

Lemma rstrip_head c s :
  Py.isspace c = false → ∃ t, Py.rstrip (String c s) = String c t.
Proof.
  intros Ec. cbn [Py.rstrip]. destruct (Py.rstrip s); rewrite ?Ec; eauto.
Qed.

Lemma lstrip_head s c t : Py.lstrip s = String c t → Py.isspace c = false.
Proof.
  induction s as [|d s IH]; [done|]. cbn [Py.lstrip].
  destruct (Py.isspace d) eqn:Ed; [done|]. by intros [= <- _].
Qed.

Lemma strip_idemp s : Py.strip (Py.strip s) = Py.strip s.
Proof.
  unfold Py.strip. destruct (Py.lstrip s) as [|c t] eqn:E; [done|].
  apply lstrip_head in E as Ec.
  destruct (rstrip_head c t Ec) as [u Hu]. rewrite Hu.
  cbn [Py.lstrip]. rewrite Ec, <-Hu. apply rstrip_idemp.
Qed.

(** Every name in the table [getGroups] returns is free of surrounding white
    space, whatever padding the [Groups] table stores: the location and each
    ancestor name present are their own [strip()]. *)
Theorem getGroups_names_stripped (db : DB) (year : option Py.value)
    (r : Flat.row) :
  r ∈ getGroups db year →
  Py.strip (Flat.Location r) = Flat.Location r
  ∧ ∀ n, (Flat.Dom_NonDom r = Some n ∨ Flat.Survey r = Some n
          ∨ Flat.Year r = Some n) → Py.strip n = n.
Proof.
  intros Hr.
  assert (r ∈ reconstruct (normalise <$> db_Groups db)) as Hrec.
  { rewrite <-sort_index_perm. unfold getGroups in Hr.
    destruct year; [by apply list_elem_of_filter in Hr as [_ ?]|done]. }
  assert (∀ g, g ∈ normalise <$> db_Groups db →
               Py.strip (Groups.GroupName g) = Groups.GroupName g) as Hstrip.
  { intros g (raw & -> & _)%list_elem_of_fmap. apply strip_idemp. }
  apply elem_of_reconstruct in Hrec as [(g & Hg & Hleaf) Hnames]. split.
  - injection Hleaf as _ -> _. apply Hstrip.
    by apply children_of_subseteq in Hg.
  - intros n Hn. destruct (Hnames n Hn) as (g' & Hg' & <-). by apply Hstrip.
Qed.

Lemma getGroups_names_stripped_witness :
  Flat.mkRow (Some 1) (Some 1) (Some 2) (Some 3) 5 (Some "Domestic")
    (Some "Eskom LR") (Some "2012") "Loc A"
    ∈ getGroups Example.database (Some (Py.Int 2012))
  ∧ Py.strip "2012" = "2012".
Proof.
  assert (Flat.mkRow (Some 1) (Some 1) (Some 2) (Some 3) 5 (Some "Domestic")
            (Some "Eskom LR") (Some "2012") "Loc A"
          ∈ getGroups Example.database (Some (Py.Int 2012))) as Hin
    by (vm_compute; left).
  split; [exact Hin|].
  destruct (getGroups_names_stripped _ _ _ Hin) as [_ Hnames].
  apply Hnames. by right; right.
Defined.

(** ** A year without groups *)

Lemma filter_nothing {A} (P : A → Prop) `{!∀ x, Decision (P x)} (l : list A) :
  (∀ x, x ∈ l → ¬ P x) → filter P l = [].
Proof.
  induction l as [|a l IH]; intros Hl; [done|].
  rewrite filter_cons_False by (apply Hl; left).
  apply IH. intros x Hx. apply Hl. by right.
Qed.

(** A year that matches no group selects no profile, and a selection
    without rows is an error down the chain: [getProfileID] gives an empty
    series, and [getMetaProfiles], whatever the units, [getProfiles] and
    [getSampleProfiles] raise [ValueError]; [profileFetchEst] reports no
    profile. *)
Theorem year_without_groups (db : DB) (year : Py.value) :
  getGroups db (Some year) = [] →
  getProfileID db (Some year) = Series []
  ∧ (∀ units, getMetaProfiles db (Some year) units = Py.Raised Py.ValueError)
  ∧ (∀ month units,
       getProfiles db (Some year) month units = Py.Raised Py.ValueError)
  ∧ (∀ sample_query,
       getSampleProfiles db sample_query (Some year)
       = Py.Raised Py.ValueError)
  ∧ ∀ y, year = Py.Int y → profileFetchEst db (Some year) = inr (0%nat, y).
Proof.
  intros Hnone.
  assert (getProfileID db (Some year) = Series []) as Hids.
  { unfold getProfileID. rewrite Hnone.
    rewrite filter_nothing; [done|]. intros l _ Hl. by apply elem_of_nil in Hl. }
  assert (metaprofiles db (Some year) = []) as Hmp.
  { unfold metaprofiles. rewrite Hids. simpl.
    apply filter_nothing. intros m _ Hm. by apply elem_of_nil in Hm. }
  assert (∀ units,
            getMetaProfiles db (Some year) units = Py.Raised Py.ValueError)
    as Hall.
  { intros units. unfold getMetaProfiles, resolve_meta, resolve_names.
    by rewrite Hmp. }
  split_and!; [done|done| | |].
  - intros month units. unfold getProfiles. by rewrite Hall.
  - intros sample_query. unfold getSampleProfiles. by rewrite Hall.
  - intros y ->. unfold profileFetchEst. by rewrite Hids.
Qed.

Lemma year_without_groups_witness :
  getGroups Example.database (Some (Py.Int 1999)) = []
  ∧ getProfiles Example.database (Some (Py.Int 1999)) None None
    = Py.Raised Py.ValueError.
Proof.
  assert (getGroups Example.database (Some (Py.Int 1999)) = []) as Hnone
    by by vm_compute.
  split; [exact Hnone|].
  destruct (year_without_groups Example.database (Py.Int 1999) Hnone)
    as (_ & _ & Hprofiles & _).
  apply Hprofiles.
Defined.

(** ** The year as number or as text *)

(** The year enters every function through [str(year)] alone: two year
    arguments with the same text, such as the number 2012 and the string
    "2012", give the same groups, identifiers, metadata and profiles. *)
Theorem year_by_its_text (db : DB) (y y' : Py.value) :
  Py.str y = Py.str y' →
  getGroups db (Some y) = getGroups db (Some y')
  ∧ getProfileID db (Some y) = getProfileID db (Some y')
  ∧ (∀ units, getMetaProfiles db (Some y) units
              = getMetaProfiles db (Some y') units)
  ∧ ∀ month units, getProfiles db (Some y) month units
                   = getProfiles db (Some y') month units.
Proof.
  intros Hstr.
  assert (getGroups db (Some y) = getGroups db (Some y')) as Hg
    by (unfold getGroups; by rewrite Hstr).
  assert (getProfileID db (Some y) = getProfileID db (Some y')) as Hp
    by (unfold getProfileID; by rewrite Hg).
  assert (∀ units, getMetaProfiles db (Some y) units
                   = getMetaProfiles db (Some y') units) as Hm.
  { intros units.
    unfold getMetaProfiles, resolve_meta, resolve_names, unit_rows,
      unit_codes, metaprofiles.
    by rewrite Hp. }
  split_and!; [done..|].
  intros month units. unfold getProfiles. by rewrite Hm.
Qed.

Lemma year_by_its_text_witness :
  Py.str (Py.Int 2012) = Py.str (Py.Str "2012")
  ∧ getProfileID Example.database (Some (Py.Int 2012))
    = getProfileID Example.database (Some (Py.Str "2012")).
Proof.
  assert (Py.str (Py.Int 2012) = Py.str (Py.Str "2012")) as Hstr
    by by vm_compute.
  split; [exact Hstr|].
  by destruct (year_by_its_text Example.database _ _ Hstr) as (_ & ? & _).
Defined.

(** ** Units and the metadata table *)

(** The units argument only selects from the list: for every supported unit
    the metadata table returned is the one returned without units, and the
    identifier list is a sublist of the list of all the year's profiles. *)
Theorem getMetaProfiles_units_select (db : DB) (year : option Py.value)
    (units label : string) :
  (units, label) ∈ unit_labels →
  is_Some (resolve_meta db year) →
  ∃ mp plist,
    getMetaProfiles db year None = Py.Returned (mp, Meta.ProfileId <$> mp)
    ∧ getMetaProfiles db year (Some units) = Py.Returned (mp, plist)
    ∧ plist `sublist_of` Meta.ProfileId <$> mp.
Proof.
  intros Hu [mp Hmp]. exists mp, (select_uom label mp). split_and!.
  - unfold getMetaProfiles. by rewrite Hmp.
  - by apply getMetaProfiles_label.
  - unfold select_uom. apply fmap_sublist, sublist_filter.
Qed.

Lemma getMetaProfiles_units_select_witness :
  ("Hz", "Hz") ∈ unit_labels
  ∧ is_Some (resolve_meta Example.database (Some (Py.Int 2005)))
  ∧ ∃ mp plist,
      getMetaProfiles Example.database (Some (Py.Int 2005)) None
      = Py.Returned (mp, Meta.ProfileId <$> mp)
      ∧ getMetaProfiles Example.database (Some (Py.Int 2005)) (Some "Hz")
        = Py.Returned (mp, plist)
      ∧ plist `sublist_of` Meta.ProfileId <$> mp.
Proof.
  assert (("Hz", "Hz") ∈ unit_labels) as Hu by by apply (bool_decide_unpack _).
  assert (is_Some (resolve_meta Example.database (Some (Py.Int 2005)))) as Hr
    by (vm_compute; eauto).
  split; [exact Hu|]. split; [exact Hr|].
  exact (getMetaProfiles_units_select _ _ _ _ Hu Hr).
Defined.

Lemma resolve_names_ascending_witness :
  metaprofiles Example.database (Some (Py.Int 2012)) ≠ []
  ∧ Units.UnitsID <$> unit_rows Example.database (Some (Py.Int 2012))
    = unit_codes Example.database (Some (Py.Int 2012))
  ∧ ∃ names, resolve_names Example.database (Some (Py.Int 2012)) = Some names
             ∧ names !! 4 = Some "kW avg".
Proof.
  assert (metaprofiles Example.database (Some (Py.Int 2012)) ≠ []) as Hne
    by by vm_compute.
  assert (Units.UnitsID <$> unit_rows Example.database (Some (Py.Int 2012))
          = unit_codes Example.database (Some (Py.Int 2012))) as Hcodes
    by by vm_compute.
  split; [exact Hne|]. split; [exact Hcodes|].
  destruct (resolve_names_ascending Example.database (Some (Py.Int 2012))
              Hne Hcodes) as (names & Hnames & Hrows).
  { apply (bool_decide_unpack _). by vm_compute. }
  exists names. split; [done|].
  apply (Hrows (Units.mkRow 4 "kW avg")).
  vm_compute. right. left.
Defined.

(** ** The table [getProfiles] returns *)

(** The last answer among the first [n] months. *)
Lemma last_fetch (f : Z → option (list Profile.row)) (n : nat) profiles :
  last (omap f (seqZ 1 (Z.of_nat n))) = Some profiles →
  ∃ i, 1 ≤ i ≤ Z.of_nat n ∧ f i = Some profiles
       ∧ ∀ j, i < j ≤ Z.of_nat n → f j = None.
Proof.
  induction n as [|n IH]; [done|].
  rewrite seqZ_S, omap_app. cbn [omap list_omap].
  destruct (f (1 + Z.of_nat n)) as [p|] eqn:Hn.
  - rewrite last_snoc. intros [= ->]. exists (1 + Z.of_nat n).
    split; [lia|]. split; [done|]. intros j ?. lia.
  - rewrite app_nil_r. intros Hlast.
    destruct (IH Hlast) as (i & Hi & Hfi & Hafter).
    exists i. split; [lia|]. split; [done|]. intros j Hj.
    destruct (decide (j = 1 + Z.of_nat n)) as [->|?]; [done|].
    apply Hafter. lia.
Qed.

Lemma no_fetch (f : Z → option (list Profile.row)) (n : nat) :
  last (omap f (seqZ 1 (Z.of_nat n))) = None
  ↔ ∀ i, 1 ≤ i ≤ Z.of_nat n → f i = None.
Proof.
  rewrite last_None. split.
  - intros Hnil i Hi. destruct (f i) as [p|] eqn:Hfi; [|done].
    assert (p ∈ omap f (seqZ 1 (Z.of_nat n))) as Hin.
    { apply list_elem_of_omap. exists i. split; [|done].
      apply elem_of_seqZ. lia. }
    rewrite Hnil in Hin. by apply elem_of_nil in Hin.
  - intros Hnone. destruct (omap f _) as [|p l] eqn:E; [done|].
    assert (p ∈ omap f (seqZ 1 (Z.of_nat n))) as Hin by (rewrite E; left).
    apply list_elem_of_omap in Hin as (i & Hi%elem_of_seqZ & Hfi).
    rewrite Hnone in Hfi by lia. done.
Qed.

Lemma elem_of_join_meta r profiles mp :
  r ∈ join_meta profiles mp →
  ∃ p m, p ∈ profiles ∧ m ∈ mp ∧ Profile.ProfileID p = Meta.ProfileId m
         ∧ Load.ProfileID r = Meta.ProfileId m
         ∧ Load.Datefield r = Profile.Datefield p
         ∧ Load.UoM r = Meta.UoM m.
Proof.
  unfold join_meta.
  intros ([p m] & -> & Hpm)%list_elem_of_fmap.
  apply elem_of_merge_inner in Hpm as (Hp & Hm & Heq). simpl in *.
  exists p, m. by rewrite Heq.
Qed.

Lemma getProfiles_closed (db : DB) year month units :
  getProfiles db year month units
  = match resolve_meta db year with
    | None => Py.Raised Py.ValueError
    | Some mp =>
        match last (omap (db_month_query db (Meta.ProfileId <$> mp))
                      (seqZ 1 (Z.of_nat 11))) with
        | Some profiles => Py.Returned (join_meta profiles mp)
        | None => Py.Raised Py.UnboundLocalError
        end
    end.
Proof.
  unfold getProfiles, getMetaProfiles.
  destruct (resolve_meta db year) as [mp|]; [|done].
  rewrite foldl_month_step. by destruct (last _).
Qed.

(** Whenever [getProfiles] returns a table, it is the join of the answer to
    one month's query with the year's metadata: the last month from 1 to 11
    whose fetch did not raise.  Every row belongs to a profile of the
    metadata; a reading without a metadata row is not in the table. *)
Theorem getProfiles_last_fetched_month (db : DB) (year : option Py.value)
    (month : option Z) (units : option string) (df : list Load.row) :
  getProfiles db year month units = Py.Returned df →
  ∃ mp i profiles,
    resolve_meta db year = Some mp
    ∧ 1 ≤ i ≤ 11
    ∧ db_month_query db (Meta.ProfileId <$> mp) i = Some profiles
    ∧ (∀ j, i < j ≤ 11 → db_month_query db (Meta.ProfileId <$> mp) j = None)
    ∧ df = join_meta profiles mp
    ∧ ∀ r, r ∈ df →
        Load.ProfileID r ∈ Meta.ProfileId <$> mp
        ∧ ∃ p, p ∈ profiles ∧ Load.Datefield r = Profile.Datefield p.
Proof.
  rewrite getProfiles_closed.
  destruct (resolve_meta db year) as [mp|]; [|done].
  destruct (last _) as [profiles|] eqn:Hlast; [|done]. intros [= <-].
  apply (last_fetch _ 11) in Hlast as (i & Hi & Hfi & Hafter).
  exists mp, i, profiles.
  split; [done|]. split; [lia|]. split; [done|].
  split; [intros j Hj; apply Hafter; lia|]. split; [done|].
  intros r (p & m & Hp & Hm & _ & -> & -> & _)%elem_of_join_meta.
  split; [by apply list_elem_of_fmap_2|by exists p].
Qed.

Lemma getProfiles_last_fetched_month_witness :
  getProfiles Example.database_may_down (Some (Py.Int 2012)) None None
  = Py.Returned (join_meta (Example.readings [101; 102] 11)
                   [Meta.mkRow true 101 "R1" (Some "A avg");
                    Meta.mkRow true 102 "R1" (Some "kW avg")])
  ∧ ∃ i, 1 ≤ i ≤ 11.
Proof.
  assert (getProfiles Example.database_may_down (Some (Py.Int 2012)) None None
          = Py.Returned (join_meta (Example.readings [101; 102] 11)
                           [Meta.mkRow true 101 "R1" (Some "A avg");
                            Meta.mkRow true 102 "R1" (Some "kW avg")])) as Hret
    by by vm_compute.
  split; [exact Hret|].
  destruct (getProfiles_last_fetched_month _ _ _ _ _ Hret)
    as (_ & i & _ & _ & Hi & _).
  by exists i.
Defined.

(** [getProfiles] raises [UnboundLocalError] exactly when the metadata
    resolves and the fetch of every month from 1 to 11 raises; it raises
    [ValueError] exactly when the year selects no profile or the renaming of
    the unit categories raises (the lookup table has not as many rows for
    the codes in use as there are such codes, or repeats a description). *)
Theorem getProfiles_errors (db : DB) (year : option Py.value)
    (month : option Z) (units : option string) :
  (getProfiles db year month units = Py.Raised Py.UnboundLocalError
   ↔ ∃ mp, resolve_meta db year = Some mp
           ∧ ∀ i, 1 ≤ i ≤ 11 →
                  db_month_query db (Meta.ProfileId <$> mp) i = None)
  ∧ (getProfiles db year month units = Py.Raised Py.ValueError
     ↔ metaprofiles db year = []
       ∨ ¬ (length (unit_rows db year) = length (unit_codes db year)
            ∧ NoDup (Units.Description <$> unit_rows db year))).
Proof.
  assert (resolve_meta db year = None
          ↔ metaprofiles db year = []
            ∨ ¬ (length (unit_rows db year) = length (unit_codes db year)
                 ∧ NoDup (Units.Description <$> unit_rows db year))) as Hnone.
  { rewrite resolve_meta_None.
    destruct (metaprofiles db year) as [|m mp]; [intuition|].
    split.
    - intros Hno. right. intros [??]. by apply Hno.
    - intros [?|Hno]; [done|]. intros (_ & ? & ?). by apply Hno. }
  rewrite <-Hnone, getProfiles_closed.
  destruct (resolve_meta db year) as [mp|]; split.
  - destruct (last _) as [p|] eqn:Hlast.
    + split; [done|]. intros (mp' & [= <-] & Hnofetch).
      apply (no_fetch _ 11) in Hnofetch. congruence.
    + split; [|done]. intros _. exists mp. split; [done|].
      by apply (no_fetch _ 11).
  - by destruct (last _).
  - split; [done|]. by intros (mp & ? & _).
  - done.
Qed.

(** No profile, no table: the metadata of 1999 selects nothing. *)
Example getProfiles_no_profiles :
  getProfiles Example.database (Some (Py.Int 1999)) None None
  = Py.Raised Py.ValueError.
Proof. by vm_compute. Qed.

Example getProfiles_server_down :
  getProfiles database_down (Some (Py.Int 2012)) None None
  = Py.Raised Py.UnboundLocalError.
Proof. by vm_compute. Qed.

(** ** The fetch estimate and the sample *)

(** [profileFetchEst] bases its estimate on the number of distinct profiles
    of the year: a profile linked to several of the year's groups counts
    once.  The year must be a number: for a year given as text, or none, the
    call raises [TypeError]. *)
Theorem profileFetchEst_counts_profiles (db : DB) :
  (∀ y : Z,
     profileFetchEst db (Some (Py.Int y))
     = inr (size (list_to_set (C := gset Z)
                    (Link.ProfileID <$>
                       filter (λ l, Link.GroupID l
                                    ∈ Flat.GroupID
                                        <$> getGroups db (Some (Py.Int y)))
                         (allprofiles db))), y))
  ∧ (∀ s, profileFetchEst db (Some (Py.Str s)) = inl Py.TypeError)
  ∧ profileFetchEst db None = inl Py.TypeError.
Proof.
  split_and!; [|done..].
  intros y. unfold profileFetchEst. f_equal. f_equal.
  simpl. rewrite length_fmap.
  set (ids := Link.ProfileID <$> _).
  rewrite <-(size_list_to_set (C := gset Z) (unique ids))
    by apply NoDup_unique.
  f_equal. apply set_eq. intros p.
  by rewrite !elem_of_list_to_set, elem_of_unique.
Qed.

Example profileFetchEst_2012 :
  profileFetchEst Example.database (Some (Py.Int 2012)) = inr (2%nat, 2012).
Proof. by vm_compute. Qed.

Lemma elem_of_join_sample r profiles mp :
  r ∈ join_sample profiles mp →
  ∃ p m, p ∈ profiles ∧ m ∈ mp
         ∧ Sample.ProfileID r = Meta.ProfileId m
         ∧ Sample.Valid r = valid_flag (Profile.Valid p).
Proof.
  unfold join_sample.
  intros ([p m] & -> & Hpm)%list_elem_of_fmap.
  apply elem_of_merge_inner in Hpm as (Hp & Hm & Heq). simpl in *.
  exists p, m. by rewrite Heq.
Qed.

(** The sample holds readings of at most nine profiles, the first nine of the
    year's metadata (the slices [0:9]), whatever the server answers; and
    [getSampleProfiles] returns only for a year given as a number. *)
Theorem getSampleProfiles_first_nine (db : DB)
    (sample_query : list Z → option (list Profile.row))
    (year : option Py.value) (df : list Sample.row) :
  getSampleProfiles db sample_query year = Py.Returned df →
  (∃ y, year = Some (Py.Int y))
  ∧ ∃ mp, resolve_meta db year = Some mp
      ∧ (length (take 9 (Meta.ProfileId <$> mp)) ≤ 9)%nat
      ∧ ∀ r, r ∈ df → Sample.ProfileID r ∈ take 9 (Meta.ProfileId <$> mp).
Proof.
  unfold getSampleProfiles, getMetaProfiles.
  destruct (resolve_meta db year) as [mp|]; [|done].
  destruct (sample_query _) as [profiles|]; [|done].
  destruct (profileFetchEst db year) as [e|n] eqn:Hest; [done|].
  intros [= <-]. split.
  - unfold profileFetchEst in Hest.
    destruct year as [[y|s]|]; [by exists y|done|done].
  - exists mp. split; [done|]. split; [rewrite length_take; lia|].
    intros r (p & m & _ & Hm & -> & _)%elem_of_join_sample.
    rewrite <-fmap_take. by apply list_elem_of_fmap_2.
Qed.

Lemma getSampleProfiles_first_nine_witness :
  getSampleProfiles Example.database (λ pids, Some (Example.readings pids 1))
    (Some (Py.Int 2012))
  = Py.Returned
      [Sample.mkRow 101 1 (Some 0) (Some true) true "R1" (Some "A avg");
       Sample.mkRow 102 1 (Some 0) (Some true) true "R1" (Some "kW avg")]
  ∧ ∃ y, Some (Py.Int 2012) = Some (Py.Int y).
Proof.
  assert (getSampleProfiles Example.database
            (λ pids, Some (Example.readings pids 1)) (Some (Py.Int 2012))
          = Py.Returned
              [Sample.mkRow 101 1 (Some 0) (Some true) true "R1" (Some "A avg");
               Sample.mkRow 102 1 (Some 0) (Some true) true "R1"
                 (Some "kW avg")]) as Hret by by vm_compute.
  split; [exact Hret|].
  by destruct (getSampleProfiles_first_nine _ _ _ _ Hret) as [? _].
Defined.

(** Given the year as text, [getSampleProfiles] fetches the sample and then
    raises [TypeError] in the estimate, where [getProfiles] takes the same
    year. *)
Example getSampleProfiles_text_year :
  getSampleProfiles Example.database (λ pids, Some (Example.readings pids 1))
    (Some (Py.Str "2012")) = Py.Raised Py.TypeError
  ∧ ∃ df, getProfiles Example.database (Some (Py.Str "2012")) None None
          = Py.Returned df.
Proof. split; [by vm_compute|]. eexists. by vm_compute. Qed.

(** ** The date range of a profile *)

Lemma minimum_spec (l : list Z) (m : Z) :
  minimum l = Some m → m ∈ l ∧ ∀ x, x ∈ l → m ≤ x.
Proof.
  revert m. induction l as [|a l IH]; intros m; [done|].
  cbn [minimum foldr]. fold (minimum l).
  destruct (minimum l) as [m'|] eqn:E; simpl; intros [= <-].
  - destruct (IH m' eq_refl) as [Hin Hle]. split.
    + destruct (Z.min_spec a m') as [[_ ->]|[_ ->]]; [left|by right].
    + intros x [->|Hx]%elem_of_cons; [lia|]. specialize (Hle x Hx). lia.
  - destruct l; [|done]. split; [left|].
    intros x [->|Hx]%elem_of_cons; [lia|by apply elem_of_nil in Hx].
Qed.

Lemma maximum_spec (l : list Z) (m : Z) :
  maximum l = Some m → m ∈ l ∧ ∀ x, x ∈ l → x ≤ m.
Proof.
  revert m. induction l as [|a l IH]; intros m; [done|].
  cbn [maximum foldr]. fold (maximum l).
  destruct (maximum l) as [m'|] eqn:E; simpl; intros [= <-].
  - destruct (IH m' eq_refl) as [Hin Hle]. split.
    + destruct (Z.max_spec a m') as [[_ ->]|[_ ->]]; [by right|left].
    + intros x [->|Hx]%elem_of_cons; [lia|]. specialize (Hle x Hx). lia.
  - destruct l; [|done]. split; [left|].
    intros x [->|Hx]%elem_of_cons; [lia|by apply elem_of_nil in Hx].
Qed.

Lemma date_day (d : Z) : date (d * day) = d.
Proof. unfold date, day. by rewrite Z.div_mul. Qed.

Lemma date_day_end (d : Z) : date (d * day + (23 * 60 + 55) * minute) = d.
Proof.
  unfold date, day, minute. symmetry.
  apply (Z.div_unique _ _ d ((23 * 60 + 55) * 60000000000)); lia.
Qed.

Lemma date_bounds (t : Z) : date t * day ≤ t < (date t + 1) * day.
Proof.
  unfold date, day.
  pose proof (Z.mod_pos_bound t 86400000000000 eq_refl).
  pose proof (Z.div_mod t 86400000000000 ltac:(done)). lia.
Qed.

Lemma date_mono (s t : Z) : s ≤ t → date s ≤ date t.
Proof. intros. unfold date, day. by apply Z.div_le_mono. Qed.

Lemma filter_everything {A} (P : A → Prop) `{!∀ x, Decision (P x)}
    (l : list A) :
  (∀ x, x ∈ l → P x) → filter P l = l.
Proof.
  induction l as [|a l IH]; intros Hl; [done|].
  rewrite filter_cons_True by (apply Hl; left).
  f_equal. apply IH. intros x Hx. apply Hl. by right.
Qed.

Section profilePeriod_facts.
Variable show : Z → string.
Variables (dataframe : list Load.row) (dataStart dataEnd : Z).
Hypothesis Hstart : minimum (Load.Datefield <$> dataframe) = Some dataStart.
Hypothesis Hend : maximum (Load.Datefield <$> dataframe) = Some dataEnd.

Lemma data_bounds (r : Load.row) :
  r ∈ dataframe → dataStart ≤ Load.Datefield r ≤ dataEnd.
Proof.
  intros Hr%(list_elem_of_fmap_2 Load.Datefield).
  destruct (minimum_spec _ _ Hstart) as [_ Hmin].
  destruct (maximum_spec _ _ Hend) as [_ Hmax].
  split; [by apply Hmin|by apply Hmax].
Qed.

Lemma data_start_end : dataStart ≤ dataEnd.
Proof.
  destruct (minimum_spec _ _ Hstart) as [_ Hmin].
  destruct (maximum_spec _ _ Hend) as [Hin _]. by apply Hmin.
Qed.

Lemma profilePeriod_unfold startdate enddate typed_start typed_end :
  profilePeriod show dataframe startdate enddate typed_start typed_end
  = Some (profilePeriod_within show dataStart dataEnd dataframe
            startdate enddate typed_start typed_end).
Proof. unfold profilePeriod. by rewrite Hstart, Hend. Qed.

(** Asking for the days of the first and of the last reading returns the
    whole frame, at whatever time of day these readings were taken. *)
Lemma profilePeriod_whole typed_start typed_end :
  profilePeriod show dataframe (Some (DateStr (date dataStart)))
    (Some (DateStr (date dataEnd))) typed_start typed_end
  = Some (Py.Returned dataframe).
Proof.
  rewrite profilePeriod_unfold. f_equal.
  unfold profilePeriod_within. cbn [default from_option id period_start period_end].
  pose proof data_start_end as Hse.
  pose proof (date_mono _ _ Hse) as Hd.
  rewrite decide_False by (unfold day, minute; lia).
  rewrite date_day, date_day_end.
  rewrite !(decide_True (P := _ = _)) by done.
  rewrite !decide_False by lia.
  f_equal. apply filter_everything. intros r Hr. by apply data_bounds.
Qed.

(** A period of whole days within the days of the data is accepted, and
    when no reading is later than 23:55 on its day, the frame returned holds
    exactly the readings of these days. *)
Lemma profilePeriod_days (d1 d2 : Z) typed_start typed_end :
  date dataStart ≤ d1 → d1 ≤ d2 → d2 ≤ date dataEnd →
  Forall (λ r, by_2355 (Load.Datefield r)) dataframe →
  profilePeriod show dataframe (Some (DateStr d1)) (Some (DateStr d2))
    typed_start typed_end
  = Some (Py.Returned
            (filter (λ r, d1 ≤ date (Load.Datefield r) ≤ d2) dataframe)).
Proof.
  intros H1 H12 H2 Htimes.
  rewrite profilePeriod_unfold. f_equal.
  unfold profilePeriod_within. cbn [default from_option id period_start period_end].
  pose proof data_start_end as Hse.
  pose proof (date_bounds dataStart) as Hbs.
  pose proof (date_bounds dataEnd) as Hbe.
  assert (by_2355 dataStart) as Hs2355.
  { destruct (minimum_spec _ _ Hstart) as [Hin _].
    apply list_elem_of_fmap in Hin as (r & -> & Hr).
    rewrite Forall_forall in Htimes. by apply Htimes. }
  unfold by_2355 in Hs2355.
  rewrite decide_False by (unfold day, minute; lia).
  rewrite date_day, date_day_end.
  unfold day, minute in *.
  rewrite (decide_False (P := _ ∨ _)) by (repeat case_decide; lia).
  rewrite (decide_False (P := _ ∨ _)) by (repeat case_decide; lia).
  f_equal. apply filter_ext_elem. intros r Hr.
  pose proof (data_bounds r Hr) as Hb.
  pose proof (date_bounds (Load.Datefield r)) as Hbr.
  pose proof (date_mono _ _ (proj1 Hb)) as Hm1.
  pose proof (date_mono _ _ (proj2 Hb)) as Hm2.
  rewrite Forall_forall in Htimes. specialize (Htimes r Hr).
  unfold by_2355 in Htimes. unfold day, minute in *.
  repeat case_decide; lia.
Qed.

(** What is refused: a start after the end, a period that starts before the
    first day of the data, and one that ends after its last day. *)
Lemma profilePeriod_refused typed_start typed_end :
  (∀ a b, period_start a > period_end b →
     profilePeriod show dataframe (Some a) (Some b) typed_start typed_end
     = Some (Py.Printed "Period start must be before period end."))
  ∧ (∀ d1 d2, d1 ≤ d2 → d1 < date dataStart →
       profilePeriod show dataframe (Some (DateStr d1)) (Some (DateStr d2))
         typed_start typed_end
       = Some (Py.Printed (start_message show dataStart dataEnd)))
  ∧ (∀ d1 d2, date dataStart ≤ d1 → d1 ≤ date dataEnd → date dataEnd < d2 →
       profilePeriod show dataframe (Some (DateStr d1)) (Some (DateStr d2))
         typed_start typed_end
       = Some (Py.Printed (end_message show dataStart dataEnd))).
Proof.
  pose proof data_start_end as Hse.
  pose proof (date_bounds dataStart) as Hbs.
  pose proof (date_bounds dataEnd) as Hbe.
  split_and!.
  - intros a b Hab. rewrite profilePeriod_unfold. f_equal.
    unfold profilePeriod_within. cbn [default from_option id]. by rewrite decide_True.
  - intros d1 d2 H12 H1. rewrite profilePeriod_unfold. f_equal.
    unfold profilePeriod_within. cbn [default from_option id period_start period_end].
    rewrite decide_False by (unfold day, minute; lia).
    rewrite date_day, date_day_end. unfold day, minute in *.
    rewrite (decide_False (P := d1 = _)) by lia.
    by rewrite (decide_True (P := _ ∨ _)) by lia.
  - intros d1 d2 H1 H1e H2. rewrite profilePeriod_unfold. f_equal.
    unfold profilePeriod_within. cbn [default from_option id period_start period_end].
    rewrite decide_False by (unfold day, minute; lia).
    rewrite date_day, date_day_end. unfold day, minute in *.
    rewrite (decide_False (P := d2 = _)) by lia.
    rewrite (decide_False (P := _ ∨ _)) by (case_decide; lia).
    by rewrite (decide_True (P := _ ∨ _)) by lia.
Qed.
End profilePeriod_facts.

Lemma sample_frame_bounds :
  minimum (Load.Datefield <$> sample_frame) = Some (3 * day + 5 * minute)
  ∧ maximum (Load.Datefield <$> sample_frame)
    = Some (5 * day + (23 * 60 + 55) * minute).
Proof. split; by vm_compute. Qed.

Lemma profilePeriod_whole_witness :
  minimum (Load.Datefield <$> sample_frame) = Some (3 * day + 5 * minute)
  ∧ maximum (Load.Datefield <$> sample_frame)
    = Some (5 * day + (23 * 60 + 55) * minute)
  ∧ profilePeriod pretty sample_frame
      (Some (DateStr (date (3 * day + 5 * minute))))
      (Some (DateStr (date (5 * day + (23 * 60 + 55) * minute)))) 0 0
    = Some (Py.Returned sample_frame).
Proof.
  destruct sample_frame_bounds as [Hs He].
  split; [exact Hs|]. split; [exact He|].
  exact (profilePeriod_whole pretty sample_frame _ _ Hs He 0 0).
Defined.

Lemma profilePeriod_days_witness :
  minimum (Load.Datefield <$> sample_frame) = Some (3 * day + 5 * minute)
  ∧ maximum (Load.Datefield <$> sample_frame)
    = Some (5 * day + (23 * 60 + 55) * minute)
  ∧ Forall (λ r, by_2355 (Load.Datefield r)) sample_frame
  ∧ profilePeriod pretty sample_frame (Some (DateStr 4)) (Some (DateStr 4))
      0 0
    = Some (Py.Returned
              (filter (λ r, 4 ≤ date (Load.Datefield r) ≤ 4) sample_frame)).
Proof.
  destruct sample_frame_bounds as [Hs He].
  assert (Forall (λ r, by_2355 (Load.Datefield r)) sample_frame) as Ht.
  { repeat constructor; by vm_compute. }
  split; [exact Hs|]. split; [exact He|]. split; [exact Ht|].
  apply (profilePeriod_days pretty sample_frame _ _ Hs He 4 4 0 0);
    [by vm_compute|lia|by vm_compute|exact Ht].
Defined.

Lemma profilePeriod_refused_witness :
  minimum (Load.Datefield <$> sample_frame) = Some (3 * day + 5 * minute)
  ∧ maximum (Load.Datefield <$> sample_frame)
    = Some (5 * day + (23 * 60 + 55) * minute)
  ∧ profilePeriod pretty sample_frame (Some (DateStr 5)) (Some (DateStr 4))
      0 0
    = Some (Py.Printed "Period start must be before period end.").
Proof.
  destruct sample_frame_bounds as [Hs He].
  split; [exact Hs|]. split; [exact He|].
  destruct (profilePeriod_refused pretty sample_frame _ _ Hs He 0 0)
    as [Horder _].
  apply Horder. by vm_compute.
Defined.

Example profilePeriod_one_day :
  profilePeriod pretty sample_frame (Some (DateStr 4)) (Some (DateStr 4)) 0 0
  = Some (Py.Returned
            [Load.mkRow 101 (4 * day) (Some 0) "Y" true "R1" None]).
Proof. by vm_compute. Qed.

(** ** Files written *)

Lemma length_append (a b : string) :
  String.length (a +:+ b) = (String.length a + String.length b)%nat.
Proof. induction a as [|c a IH]; [done|]. simpl. by rewrite IH. Qed.

Lemma append_inj_l (s a b : string) : s +:+ a = s +:+ b → a = b.
Proof. induction s as [|c s IH]; [done|]. simpl. intros [= ?]. auto. Qed.

Lemma append_inj_r (s a b : string) : a +:+ s = b +:+ s → a = b.
Proof.
  revert b. induction a as [|c a IH]; intros [|d b] Heq; [done| | |].
  - apply (f_equal String.length) in Heq.
    rewrite !length_append in Heq. simpl in Heq. lia.
  - apply (f_equal String.length) in Heq.
    rewrite !length_append in Heq. simpl in Heq. lia.
  - simpl in Heq. injection Heq as -> Heq. f_equal. by apply IH.
Qed.

(** The files of two years under one path prefix have different names. *)
Lemma profile_path_inj (mypath : string) (i j : Z) :
  profile_path mypath i = profile_path mypath j → i = j.
Proof.
  unfold profile_path. intros Heq%append_inj_l%append_inj_l%append_inj_r.
  by apply (inj pretty).
Qed.

(** ** Saving a range of years *)

Lemma getProfiles_not_printed db year month units msg :
  getProfiles db year month units ≠ Py.Printed msg.
Proof.
  rewrite getProfiles_closed.
  destruct (resolve_meta db year); [|done]. by destruct (last _).
Qed.

(** The state of the loop of [saveAllProfiles] after the first [n] years. *)
Lemma save_years (db : DB) (mypath : string) (yearstart : Z)
    (files : gmap string (list Load.row)) (n : nat) :
  let st := foldl (save_year db mypath) (files, Py.Returned ())
              (seqZ yearstart (Z.of_nat n)) in
  ∃ j, yearstart ≤ j ≤ yearstart + Z.of_nat n
    ∧ (∀ i, yearstart ≤ i < j →
         ∃ df, getProfiles db (Some (Py.Int i)) None None = Py.Returned df
               ∧ st.1 !! profile_path mypath i = Some df)
    ∧ (∀ p, (∀ i, yearstart ≤ i < j → p ≠ profile_path mypath i) →
            st.1 !! p = files !! p)
    ∧ ((j = yearstart + Z.of_nat n ∧ st.2 = Py.Returned ())
       ∨ (j < yearstart + Z.of_nat n
          ∧ ∃ e, getProfiles db (Some (Py.Int j)) None None = Py.Raised e
                 ∧ st.2 = Py.Raised e)).
Proof.
  induction n as [|n IH].
  - exists yearstart. simpl. split; [lia|]. split; [intros; lia|].
    split; [done|]. left. split; [lia|done].
  - rewrite seqZ_S, foldl_app. cbn [foldl].
    destruct IH as (j & Hj & Hwritten & Hother & [[-> Hret]|(Hlt & e & He & Hraised)]).
    + set (st := foldl _ _ _) in *. unfold save_year. rewrite Hret.
      destruct (getProfiles db (Some (Py.Int (yearstart + Z.of_nat n))) None None)
        as [df|msg|e] eqn:Hget.
      * exists (yearstart + Z.of_nat (S n)). cbn [fst snd].
        split; [lia|]. split; [|split; [|left; split; [lia|done]]].
        -- intros i Hi.
           destruct (decide (i = yearstart + Z.of_nat n)) as [->|Hne].
           ++ exists df. split; [done|]. by rewrite lookup_insert_eq.
           ++ destruct (Hwritten i ltac:(lia)) as (df' & ? & ?).
              exists df'. split; [done|]. rewrite lookup_insert_ne; [done|].
              intros Heq%profile_path_inj. lia.
        -- intros p Hp. rewrite lookup_insert_ne by (apply not_eq_sym, Hp; lia).
           apply Hother. intros i Hi. apply Hp. lia.
      * by apply getProfiles_not_printed in Hget.
      * exists (yearstart + Z.of_nat n). cbn [fst snd].
        split; [lia|]. split; [done|]. split; [done|].
        right. split; [lia|]. by exists e.
    + set (st := foldl _ _ _) in *. unfold save_year. rewrite Hraised.
      exists j. split; [lia|]. split; [done|]. split; [done|].
      right. split; [lia|]. by exists e.
Qed.

(** [saveAllProfiles] writes one file per year, each holding the table
    [getProfiles] returns for that year, up to the first year for which
    [getProfiles] raises: that exception ends the call, the files of the
    earlier years stay, and no other file is touched.  With [yearend]
    before [yearstart] nothing is written. *)
Theorem saveAllProfiles_until_first_error (db : DB) (mypath : string)
    (yearstart yearend : Z) (files : gmap string (list Load.row)) :
  let st := saveAllProfiles db mypath yearstart yearend files in
  ∃ j, yearstart ≤ j
    ∧ (∀ i, yearstart ≤ i < j →
         ∃ df, getProfiles db (Some (Py.Int i)) None None = Py.Returned df
               ∧ st.1 !! profile_path mypath i = Some df)
    ∧ (∀ p, (∀ i, yearstart ≤ i < j → p ≠ profile_path mypath i) →
            st.1 !! p = files !! p)
    ∧ ((j = Z.max yearstart (yearend + 1) ∧ st.2 = Py.Returned ())
       ∨ (j ≤ yearend
          ∧ ∃ e, getProfiles db (Some (Py.Int j)) None None = Py.Raised e
                 ∧ st.2 = Py.Raised e)).
Proof.
  unfold saveAllProfiles, range.
  destruct (decide (yearend + 1 - yearstart ≤ 0)) as [Hempty|Hsome].
  - rewrite seqZ_nil by done. simpl. exists yearstart.
    split; [lia|]. split; [intros; lia|]. split; [done|].
    left. split; [lia|done].
  - destruct (save_years db mypath yearstart files
                (Z.to_nat (yearend + 1 - yearstart)))
      as (j & Hj & Hwritten & Hother & Hend).
    rewrite Z2Nat.id in * by lia.
    exists j. split; [lia|]. split; [done|]. split; [done|].
    destruct Hend as [[-> ?]|[? ?]]; [left|right]; split; [lia|done|lia|done].
Qed.

(** 2012 is saved; 2013 has no group, [getProfiles] raises and ends the
    call. *)
Example saveAllProfiles_two_years :
  saveAllProfiles Example.database "out/" 2012 2013 ∅
  = (<[ "out/p2012.feather" :=
          join_meta (Example.readings [101; 102] 11)
            [Meta.mkRow true 101 "R1" (Some "A avg");
             Meta.mkRow true 102 "R1" (Some "kW avg")] ]> ∅,
     Py.Raised Py.ValueError).
Proof. by vm_compute. Qed.

(** ** More on the anonymization pass *)

(** [anonAns] never touches the database or the rule files, and the only
    files it can change are the two [<table>_anon] files, whether it returns
    or raises. *)
Theorem anonAns_touches_two_files (w : World) :
  db (anonAns w).1 = db w
  ∧ anonymise_dir (anonAns w).1 = anonymise_dir w
  ∧ ∀ p, p ≠ anon_path "Answers_blob" → p ≠ anon_path "Answers_char" →
         tables_dir (anonAns w).1 !! p = tables_dir w !! p.
Proof.
  rewrite anonAns_unfold.
  destruct (anon_table_result w "Answers_blob" "blobQs.csv") as [rb Hb].
  destruct (anon_table_result w "Answers_char" "charQs.csv") as [rc Hc].
  rewrite (Hb w) by done. destruct rb as [e|ob]; [done|]. cbn [snd fst].
  rewrite Hc by done. destruct rc as [e|oc];
    cbn [fst snd db anonymise_dir tables_dir].
  - split_and!; [done..|]. intros p Hpb _. by rewrite lookup_insert_ne.
  - split_and!; [done..|]. intros p Hpb Hpc. by rewrite !lookup_insert_ne.
Qed.

(** Running [anonAns] again on what it left changes nothing: the frames are
    recomputed from the database, which the first run did not touch. *)
Theorem anonAns_idempotent (w : World) :
  anonAns (anonAns w).1 = anonAns w.
Proof.
  destruct (anon_table_result w "Answers_blob" "blobQs.csv") as [rb Hb].
  destruct (anon_table_result w "Answers_char" "charQs.csv") as [rc Hc].
  rewrite (anonAns_unfold w), (Hb w) by done.
  destruct rb as [e|ob]; cbn [snd fst].
  { rewrite anonAns_unfold, (Hb w) by done. done. }
  rewrite Hc by done. destruct rc as [e|oc];
    cbn [fst snd db anonymise_dir tables_dir].
  - rewrite anonAns_unfold, Hb by done.
    cbn [fst snd db anonymise_dir tables_dir].
    rewrite Hc by done. cbn [fst snd db anonymise_dir tables_dir].
    by rewrite insert_insert_eq.
  - rewrite anonAns_unfold, Hb by done.
    cbn [fst snd db anonymise_dir tables_dir].
    rewrite Hc by done. cbn [fst snd db anonymise_dir tables_dir].
    do 2 f_equal. apply map_eq. intros p. rewrite !lookup_insert.
    by repeat case_decide.
Qed.

(** When [AnswerID] is a key of both answer tables, what the specification
    asks holds in full: every row of a linked answer in the persisted tables
    has the sentinel in every marked column. *)
Theorem anonAns_masks_every_row_of_keyed_tables (w : World) :
  rule_files_present w → answers_present w →
  answer_key (db_Answers_blob (db w)) →
  answer_key (db_Answers_char (db w)) →
  masks_every_marked_cell w.
Proof.
  intros Hfiles Hpresent Hkb Hkc.
  destruct (anonAns_spec w Hfiles Hpresent) as (ob & oc & Hrun & Hmb & Hmc).
  intros k v Hkv. rewrite Hrun. cbn [fst tables_dir].
  unfold anstables in Hkv.
  repeat (apply elem_of_cons in Hkv as [[= -> ->]|Hkv]);
    [..|by apply elem_of_nil in Hkv].
  - exists ob. split.
    { rewrite lookup_insert_ne by done. by rewrite lookup_insert_eq. }
    intros x c row Hm Hrow Hx.
    apply (first_rows_masked_key w "blobQs.csv" _ ob Hkb Hmb x c row);
      [done| |done|done].
    by apply (Hpresent "Answers_blob" "blobQs.csv" _ ltac:(left) eq_refl x c).
  - exists oc. split; [by rewrite lookup_insert_eq|].
    intros x c row Hm Hrow Hx.
    apply (first_rows_masked_key w "charQs.csv" _ oc Hkc Hmc x c row);
      [done| |done|done].
    by apply (Hpresent "Answers_char" "charQs.csv" _
                ltac:(right; left) eq_refl x c).
Qed.

Lemma anonAns_masks_every_row_of_keyed_tables_witness :
  rule_files_present Example.world
  ∧ answers_present Example.world
  ∧ answer_key (db_Answers_blob (db Example.world))
  ∧ answer_key (db_Answers_char (db Example.world))
  ∧ masks_every_marked_cell Example.world.
Proof.
  assert (rule_files_present Example.world) as Hfiles.
  { intros k v Hkv. unfold anstables in Hkv.
    repeat (apply elem_of_cons in Hkv as [[= -> ->]|Hkv]);
      [..|by apply elem_of_nil in Hkv]; by eexists. }
  assert (answers_present Example.world) as Hpresent
    by apply example_answers_present, example_blob_rows.
  split; [exact Hfiles|]. split; [exact Hpresent|].
  split; [exact example_blob_key|]. split; [exact example_blob_key|].
  exact (anonAns_masks_every_row_of_keyed_tables Example.world Hfiles
           Hpresent example_blob_key example_blob_key).
Defined.

(** *** Cells that are not marked *)

(** The loop changes a cell only in the row it looks up and in the column of
    the rule: a cell whose column no rule marks for the answer of its row
    keeps its content. *)
Lemma anonymise_keeps_other_cells (a out : frame) (rules : list (Z * Z))
    (i : nat) (r : gmap string cell) (col : string) :
  anonymise a rules = Some out →
  a !! i = Some r →
  (∀ x c, (x, c) ∈ rules → has_answer x r → pretty c ≠ col) →
  ∃ r' : gmap string cell, out !! i = Some r' ∧ r' !! col = r !! col.
Proof.
  revert a r. induction rules as [|[x c] rules IH]; intros a r Hrun Hi Hcol.
  - injection Hrun as <-. by exists r.
  - unfold anonymise in Hrun. cbn [foldl] in Hrun. simpl in Hrun.
    destruct (set_anon a (x, c)) as [a1|] eqn:Hset;
      [|by rewrite anonymise_raised in Hrun].
    unfold set_anon in Hset. simpl in Hset.
    destruct (list_find (has_answer x) a) as [[j rj]|] eqn:Hfind; [|done].
    injection Hset as <-.
    apply list_find_Some in Hfind as (Hj & Hxj & _).
    destruct (decide (j = i)) as [->|Hne].
    + rewrite Hi in Hj. injection Hj as <-.
      assert (pretty c ≠ col) as Hc by (apply (Hcol x c); [left|done]).
      destruct (IH (alter (<[pretty c := CStr "a"]>) i a)
                  (<[pretty c := CStr "a"]> r) Hrun) as (r' & Hr' & Heq).
      * by rewrite list_lookup_alter_eq, Hi.
      * intros x' c' Hin Hx'. apply (Hcol x' c'); [by right|].
        unfold has_answer in *. rewrite lookup_insert_ne in Hx'; [done|].
        apply pretty_Z_not_AnswerID.
      * exists r'. split; [done|]. by rewrite Heq, lookup_insert_ne.
    + apply (IH (alter (<[pretty c := CStr "a"]>) j a) r Hrun).
      * by rewrite list_lookup_alter_ne.
      * intros x' c' Hin. apply (Hcol x' c'). by right.
Qed.

Lemma anon_table_returned (w w' : World) (k v : string) :
  anon_table w (k, v) = (w', Py.Returned ()) →
  ∃ a rules a',
    getData_answers (db w) k = Some a
    ∧ anonymise_dir w !! v = Some rules
    ∧ anonymise a (qanon (db w) rules) = Some a'
    ∧ w' = {| db := db w; anonymise_dir := anonymise_dir w;
              tables_dir := <[anon_path k := fillna_frame a']> (tables_dir w) |}.
Proof.
  unfold anon_table. cbn [fst snd].
  destruct (getData_answers (db w) k) as [a|] eqn:Ha; [|done].
  destruct (anonymise_dir w !! v) as [rules|] eqn:Hv; [|done].
  destruct (anonymise a (qanon (db w) rules)) as [a'|] eqn:Hrun; [|done].
  intros [= <-]. by exists a, rules, a'.
Qed.

(** When [anonAns] returns, the persisted tables differ from the source
    tables in marked cells only: a cell whose column no rule marks for the
    answer of its row is persisted with its source content ([None] written
    as [NaN]). *)
Theorem anonAns_keeps_unmarked_cells (w : World) (k v : string) (a : frame)
    (i : nat) (r : gmap string cell) (col : string) :
  (anonAns w).2 = Py.Returned () →
  (k, v) ∈ anstables →
  getData_answers (db w) k = Some a →
  a !! i = Some r →
  (∀ x c, marked w v x c → has_answer x r → pretty c ≠ col) →
  ∃ (out : frame) (r' : gmap string cell),
    tables_dir (anonAns w).1 !! anon_path k = Some out
    ∧ out !! i = Some r'
    ∧ r' !! col = fillna <$> (r !! col).
Proof.
  intros Hret Hkv Ha Hi Hcol. rewrite anonAns_unfold in Hret |- *.
  destruct (anon_table w ("Answers_blob", "blobQs.csv")) as [w1 o1] eqn:H1.
  cbn [fst snd] in *. destruct o1 as [[]|msg|e]; [|done|done].
  destruct (anon_table w1 ("Answers_char", "charQs.csv")) as [w2 o2] eqn:H2.
  cbn [fst snd] in *. subst o2.
  apply anon_table_returned in H1 as (ab & rb & ab' & Hab & Hrb & Hrunb & ->).
  apply anon_table_returned in H2 as (ac & rc & ac' & Hac & Hrc & Hrunc & ->).
  cbn [db anonymise_dir tables_dir] in *.
  unfold anstables in Hkv.
  repeat (apply elem_of_cons in Hkv as [[= -> ->]|Hkv]);
    [..|by apply elem_of_nil in Hkv].
  - rewrite Hab in Ha. injection Ha as ->.
    destruct (anonymise_keeps_other_cells a ab' _ i r col Hrunb Hi)
      as (r' & Hr' & Heq).
    { intros x c Hin. apply Hcol. by apply (elem_of_qanon w _ rb). }
    exists (fillna_frame ab'), (fillna <$> r'). split_and!.
    + rewrite lookup_insert_ne by done. by rewrite lookup_insert_eq.
    + unfold fillna_frame. by rewrite list_lookup_fmap, Hr'.
    + by rewrite lookup_fmap, Heq.
  - rewrite Hac in Ha. injection Ha as ->.
    destruct (anonymise_keeps_other_cells a ac' _ i r col Hrunc Hi)
      as (r' & Hr' & Heq).
    { intros x c Hin. apply Hcol. by apply (elem_of_qanon w _ rc). }
    exists (fillna_frame ac'), (fillna <$> r'). split_and!.
    + by rewrite lookup_insert_eq.
    + unfold fillna_frame. by rewrite list_lookup_fmap, Hr'.
    + by rewrite lookup_fmap, Heq.
Qed.

Lemma anonAns_keeps_unmarked_cells_witness :
  (anonAns Example.world).2 = Py.Returned ()
  ∧ ∃ (out : frame) (r' : gmap string cell),
      tables_dir (anonAns Example.world).1 !! anon_path "Answers_blob"
      = Some out
      ∧ out !! 2%nat = Some r'
      ∧ r' !! "5" = fillna <$> (Example.answer_row 3 "n/a" !! "5").
Proof.
  assert ((anonAns Example.world).2 = Py.Returned ()) as Hret by by vm_compute.
  split; [exact Hret|].
  apply (anonAns_keeps_unmarked_cells Example.world "Answers_blob"
           "blobQs.csv" Example.blob 2 _ "5" Hret);
    [left|done|done|].
  intros x c (rules & ans & rule & Hr & Hrule & Han & Hans & Hq & -> & ->) Hx.
  vm_compute in Hx. injection Hx as Hx.
  simpl in Hans. unfold Example.answers in Hans.
  injection Hr as <-.
  repeat (apply elem_of_cons in Hans as [->|Hans]);
    [..|by apply elem_of_nil in Hans]; simpl in *; try done.
  repeat (apply elem_of_cons in Hrule as [->|Hrule]);
    [..|by apply elem_of_nil in Hrule]; simpl in *; done.
Defined.
